(** * pymarc.reader: the MARC21 record framer [MARCReader]

    A shallow embedding of [pymarc/reader.py]: the input normalisation done
    by [MARCReader.__init__] and the iteration step [MARCReader.__next__],
    together with the Python built-ins they call ([int] on [bytes],
    [bytes.decode], [str.encode], [read] on binary streams).

    Python values are modelled as follows.
    - [bytes]: [list byte];    [str]: [list N] (Unicode code points);
    - [int]: [Z] (unbounded);
    - exceptions: the inductive [exn]; a computation returns [A + exn];
    - the mutable reader object and what it prints are threaded through a
      small state-and-exception monad. *)

From Stdlib Require Import String Ascii DecimalString.
From Stdlib.Strings Require Import Byte.
From Stdlib Require Import ZArith NArith Lia Bool List.
Import ListNotations.

Set Implicit Arguments.

(** ** Exceptions and diagnostics *)

Inductive exn : Type :=
| StopIteration
| RecordLengthInvalid
| ValueError
| TypeError
| AttributeError
| UnicodeDecodeError
| UnicodeEncodeError
| FileNotFoundError
| OtherError (name : string).

(** [repr] of the exception class, as [%s] formats [sys.exc_info()[0]]. *)
Definition class_name (e : exn) : string :=
  match e with
  | StopIteration => "StopIteration"
  | RecordLengthInvalid => "pymarc.exceptions.RecordLengthInvalid"
  | ValueError => "ValueError"
  | TypeError => "TypeError"
  | AttributeError => "AttributeError"
  | UnicodeDecodeError => "UnicodeDecodeError"
  | UnicodeEncodeError => "UnicodeEncodeError"
  | FileNotFoundError => "FileNotFoundError"
  | OtherError name => name
  end.

Definition class_repr (e : exn) : string :=
  ("<class '" ++ class_name e ++ "'>")%string.

(** The [name] of a file object, which is also what [open] takes: a path,
    or the integer descriptor the object was opened on. *)
Inductive file_name : Type :=
| Path (path : string)
| Descriptor (fd : nat).

(** What the reader makes observable besides its return value. *)
Inductive event : Type :=
| LogError (msg : string)          (* logging.error(msg) *)
| PrintExc (e : exn)               (* traceback.print_exc(file=sys.stderr) *)
| Closed (id : nat)                (* handle.close() *)
| Opened (name : file_name) (id : nat) (* open(name, 'rb') *).

(** ** Python built-ins on bytes and text *)

Module Py.

Definition code (b : byte) : N := Byte.to_N b.

Definition byte_of_code (c : N) : byte := byte_of_ascii (ascii_of_N c).

(** The [errors=] argument of the codecs, restricted to the four values
    the constructor's docstring lists. *)
Inductive errors_mode : Type :=
| strict
| replace
| xmlcharrefreplace
| ignore.

(** *** [int(b)] for a [bytes] argument, base 10

    CPython accepts [ws* [+-]? digits ws*] and nothing else in the
    buffer; since PEP 515 (Python 3.6) single underscores may separate
    digits.  [pep515] selects the grammar. *)

Definition is_space (b : byte) : bool :=
  let c := code b in
  ((9 <=? c) && (c <=? 13) || (c =? 32))%N.

Definition digit_val (b : byte) : option Z :=
  let c := code b in
  if ((48 <=? c) && (c <=? 57))%N then Some (Z.of_N c - 48)%Z else None.

Fixpoint skip_space (bs : list byte) : list byte :=
  match bs with
  | b :: r => if is_space b then skip_space r else bs
  | [] => []
  end.

Inductive scanned : Type := AtStart | AfterDigit | AfterUnderscore.

(** Scans the digit run; returns its value and what follows it. *)
Fixpoint scan_digits (pep515 : bool) (prev : scanned) (acc : Z)
         (bs : list byte) : option (Z * list byte) :=
  let stop :=
    match prev with
    | AfterDigit => Some (acc, bs)
    | AtStart | AfterUnderscore => None
    end in
  match bs with
  | [] => stop
  | b :: r =>
    match digit_val b with
    | Some d => scan_digits pep515 AfterDigit (10 * acc + d)%Z r
    | None =>
      if pep515 && (code b =? 95)%N then
        match prev with
        | AfterDigit => scan_digits pep515 AfterUnderscore acc r
        | AtStart | AfterUnderscore => None
        end
      else stop
    end
  end.

Definition int_of_bytes (pep515 : bool) (bs : list byte) : Z + exn :=
  let s := skip_space bs in
  let '(neg, s) :=
    match s with
    | b :: r =>
      if (code b =? 43)%N then (false, r)
      else if (code b =? 45)%N then (true, r)
      else (false, s)
    | [] => (false, s)
    end in
  match scan_digits pep515 AtStart 0 s with
  | Some (v, rest) =>
    match skip_space rest with
    | [] => inl (if neg then (- v)%Z else v)
    | _ :: _ => inr ValueError
    end
  | None => inr ValueError
  end.

(** *** [bytes.decode(encoding='utf-8', errors=mode)]

    The decoder walks the buffer one byte at a time.  [Need n acc lo hi]
    means: [n] continuation bytes are still owed, [acc] holds the bits
    read so far, and the next byte has to lie in [lo..hi] (the narrowed
    ranges after E0, ED, F0 and F4 exclude overlong forms, surrogates and
    code points above U+10FFFF).  An ill-formed sequence ends at the
    first byte that cannot continue it, and that byte is looked at again
    as the start of the next sequence. *)

Inductive dstate : Type :=
| Start
| Need (n : nat) (acc lo hi : N).

Inductive emitted : Type :=
| Nothing
| Char (cp : N)
| Malformed.

Definition start_byte (c : N) : emitted * dstate :=
  (if c <? 128 then (Char c, Start)
   else if c <? 194 then (Malformed, Start)
   else if c <? 224 then (Nothing, Need 1 (N.land c 31) 128 191)
   else if c =? 224 then (Nothing, Need 2 (N.land c 15) 160 191)
   else if c =? 237 then (Nothing, Need 2 (N.land c 15) 128 159)
   else if c <? 240 then (Nothing, Need 2 (N.land c 15) 128 191)
   else if c =? 240 then (Nothing, Need 3 (N.land c 7) 144 191)
   else if c <? 244 then (Nothing, Need 3 (N.land c 7) 128 191)
   else if c =? 244 then (Nothing, Need 3 (N.land c 7) 128 143)
   else (Malformed, Start))%N.

(** One byte: what the pending sequence gives, what this byte gives, and
    the state after it. *)
Definition feed (st : dstate) (c : N) : emitted * emitted * dstate :=
  match st with
  | Start => let '(e, st') := start_byte c in (Nothing, e, st')
  | Need n acc lo hi =>
    if ((lo <=? c) && (c <=? hi))%N then
      let acc' := N.lor (N.shiftl acc 6) (N.land c 63) in
      match n with
      | 0%nat | 1%nat => (Nothing, Char acc', Start)
      | S n' => (Nothing, Nothing, Need n' acc' 128 191)
      end
    else let '(e, st') := start_byte c in (Malformed, e, st')
  end.

(** The error handler's answer to one ill-formed sequence: text to
    insert, or the exception the codec raises. *)
Definition on_malformed (mode : errors_mode) : list N + exn :=
  match mode with
  | strict => inr UnicodeDecodeError
  | replace => inl [65533%N]
  | ignore => inl []
  | xmlcharrefreplace => inr TypeError
  end.

Definition emit (mode : errors_mode) (e : emitted) : list N + exn :=
  match e with
  | Nothing => inl []
  | Char cp => inl [cp]
  | Malformed => on_malformed mode
  end.

Fixpoint decode_from (mode : errors_mode) (st : dstate) (bs : list byte)
  : list N + exn :=
  match bs with
  | [] =>
    match st with
    | Start => inl []
    | Need _ _ _ _ => on_malformed mode
    end
  | b :: r =>
    let '(e1, e2, st') := feed st (code b) in
    match emit mode e1 with
    | inr x => inr x
    | inl t1 =>
      match emit mode e2 with
      | inr x => inr x
      | inl t2 =>
        match decode_from mode st' r with
        | inr x => inr x
        | inl t => inl (t1 ++ t2 ++ t)
        end
      end
    end
  end.

Definition decode_utf8 (mode : errors_mode) (bs : list byte) : list N + exn :=
  decode_from mode Start bs.

(** *** [str.encode(encoding='ascii', errors=mode)] *)

Definition decimal_digits (n : N) : list byte :=
  list_byte_of_string (NilEmpty.string_of_uint (N.to_uint n)).

Definition encode_char (mode : errors_mode) (cp : N) : list byte + exn :=
  if (cp <? 128)%N then inl [byte_of_code cp]
  else match mode with
       | strict => inr UnicodeEncodeError
       | replace => inl [byte_of_code 63]
       | ignore => inl []
       | xmlcharrefreplace =>
         inl ([byte_of_code 38; byte_of_code 35] ++ decimal_digits cp
              ++ [byte_of_code 59])
       end.

Fixpoint encode_ascii (mode : errors_mode) (s : list N) : list byte + exn :=
  match s with
  | [] => inl []
  | cp :: r =>
    match encode_char mode cp with
    | inr x => inr x
    | inl bs =>
      match encode_ascii mode r with
      | inr x => inr x
      | inl rest => inl (bs ++ rest)
      end
    end
  end.

End Py.

(** ** A state-and-exception monad for Python code

    A computation runs in a state of type [S] and returns a value or
    raises; the state changes made before an exception stay made. *)

Definition M (S A : Type) : Type := S -> (A + exn) * S.

Definition ret {S A} (a : A) : M S A := fun st => (inl a, st).

Definition raise {S A} (e : exn) : M S A := fun st => (inr e, st).

Definition bind {S A B} (m : M S A) (k : A -> M S B) : M S B :=
  fun st =>
    match m st with
    | (inl a, st') => k a st'
    | (inr e, st') => (inr e, st')
    end.

(** [try: m  except: handler] *)
Definition try_except {S A} (m : M S A) (handler : exn -> M S A) : M S A :=
  fun st =>
    match m st with
    | (inl a, st') => (inl a, st')
    | (inr e, st') => handler e st'
    end.

(** A built-in that returns or raises without touching the state. *)
Definition lift {S A} (r : A + exn) : M S A := fun st => (r, st).

Declare Scope py_scope.
Delimit Scope py_scope with py.
Notation "x <- m ;; k" := (bind m (fun x => k))
  (at level 61, m at next level, right associativity) : py_scope.
Notation "m ;; k" := (bind m (fun _ => k))
  (at level 61, right associativity) : py_scope.
Open Scope py_scope.

(** ** Binary streams

    [self.byte_stream] is always a [BufferedReader] or a [BytesIO]: a
    cursor [s_pos] over the bytes [s_data] of the underlying file or
    buffer.  [s_id] is the identity of the handle. *)

Inductive stream_type : Type := BufferedReader | BytesIO.

Record stream : Type := mkStream {
  s_type : stream_type;
  s_id : nat;
  s_closed : bool;
  s_data : list byte;
  s_pos : nat
}.

Definition remaining (s : stream) : list byte := skipn (s_pos s) (s_data s).

Definition advance (s : stream) (n : nat) : stream :=
  mkStream (s_type s) (s_id s) (s_closed s) (s_data s) (s_pos s + n).

(** [s.read(size)].  A closed stream raises [ValueError]; so does a
    [BufferedReader] asked for a size below -1.  A negative size otherwise
    reads to the end; a non-negative one reads that many bytes, or fewer
    when the end comes first. *)
Definition stream_read (s : stream) (size : Z) : (list byte + exn) * stream :=
  if s_closed s then (inr ValueError, s)
  else
    let got := if (size <? 0)%Z then remaining s
               else firstn (Z.to_nat size) (remaining s) in
    match s_type s with
    | BufferedReader =>
      if (size <? -1)%Z then (inr ValueError, s)
      else (inl got, advance s (length got))
    | BytesIO => (inl got, advance s (length got))
    end.

(** ** The reader object *)

Record MARCReader : Type := mkReader {
  utf8_handling : Py.errors_mode;
  hide_utf8_warnings : bool;
  byte_stream : stream
}.

(** The state an iteration step runs in: the reader it mutates and what has
    been written to the log and to stderr so far (oldest first). *)
Record state : Type := mkState {
  self : MARCReader;
  out : list event
}.

Definition attr {A} (field : MARCReader -> A) : M state A :=
  fun st => (inl (field (self st)), st).

Definition logging_error (msg : string) : M state unit :=
  fun st => (inl tt, mkState (self st) (out st ++ [LogError msg])).

Definition traceback_print_exc (e : exn) : M state unit :=
  fun st => (inl tt, mkState (self st) (out st ++ [PrintExc e])).

Definition with_stream (r : MARCReader) (s : stream) : MARCReader :=
  mkReader (utf8_handling r) (hide_utf8_warnings r) s.

(** [self.byte_stream.read(size)] *)
Definition byte_stream_read (size : Z) : M state (list byte) :=
  fun st =>
    let '(r, s') := stream_read (byte_stream (self st)) size in
    (r, mkState (with_stream (self st) s') (out st)).

(** The value bound to [chunk]: [bytes] as read, [str] once decoded. *)
Inductive pyval : Type :=
| PyBytes (b : list byte)
| PyStr (s : list N).

Definition type_repr (v : pyval) : string :=
  match v with
  | PyBytes _ => "<class 'bytes'>"
  | PyStr _ => "<class 'str'>"
  end.

(** How a [for] loop over the reader ends. *)
Inductive ending : Type :=
| Exhausted                 (* StopIteration: the loop is over *)
| Propagated (e : exn)      (* another exception leaves the loop *)
| Pending                   (* the loop was cut off by the step bound *).

Section Framer.

(** [pep515]: whether the interpreter's [int] takes underscores.
    [record] and [Record_]: the class [pymarc.Record], which is outside
    this module; building a record returns it or raises. *)
Variable pep515 : bool.
Variable record : Type.
Variable Record_ : pyval -> bool -> Py.errors_mode -> record + exn.

(** [MARCReader.__next__]; [None] is Python's implicit return value. *)
Definition MARCReader_next : M state (option record) :=
  first5 <- byte_stream_read 5 ;;
  match first5 with
  | [] => raise StopIteration
  | _ :: _ =>
    if (length first5 <? 5)%nat then raise RecordLengthInvalid
    else
      length_ <- lift (Py.int_of_bytes pep515 first5) ;;
      chunk <- byte_stream_read (length_ - 5) ;;
      let chunk := first5 ++ chunk in
      chunk <- try_except
                 (mode <- attr utf8_handling ;;
                  text <- lift (Py.decode_utf8 mode chunk) ;;
                  ret (PyStr text))
                 (fun e =>
                    match e with
                    | TypeError =>
                      logging_error ("TypeError chunk type is "
                                     ++ type_repr (PyBytes chunk))%string ;;
                      ret (PyBytes chunk)
                    | _ =>
                      logging_error ("Cannot iterate, error="
                                     ++ class_repr e)%string ;;
                      ret (PyBytes chunk)
                    end) ;;
      try_except
        (hide <- attr hide_utf8_warnings ;;
         mode <- attr utf8_handling ;;
         record <- lift (Record_ chunk hide mode) ;;
         ret (Some record))
        (fun e => traceback_print_exc e ;; ret None)
  end.

(** [for record in reader: items.append(record)], bounded by [steps]. *)
Fixpoint iterate (steps : nat) (st : state)
  : list (option record) * ending * state :=
  match steps with
  | O => ([], Pending, st)
  | S steps' =>
    match MARCReader_next st with
    | (inl item, st') =>
      let '(items, fin, st'') := iterate steps' st' in
      (item :: items, fin, st'')
    | (inr StopIteration, st') => ([], Exhausted, st')
    | (inr e, st') => ([], Propagated e, st')
    end
  end.

(** The bytes each of the first [steps] calls takes from the stream, up
    to the first call that raises. *)
Fixpoint spans (steps : nat) (st : state) : list (list byte) :=
  match steps with
  | O => []
  | S steps' =>
    match MARCReader_next st with
    | (inl _, st') =>
      let before := s_pos (byte_stream (self st)) in
      let after := s_pos (byte_stream (self st')) in
      firstn (after - before) (skipn before (s_data (byte_stream (self st))))
      :: spans steps' st'
    | (inr _, _) => []
    end
  end.

(** The state after [n] calls of [__next__], whatever they returned. *)
Fixpoint after_calls (n : nat) (st : state) : state :=
  match n with
  | O => st
  | S n' => after_calls n' (snd (MARCReader_next st))
  end.

End Framer.

(** ** Input normalisation: [MARCReader.__init__] *)

(** A text-mode handle: [open(path)] gives a [TextIOWrapper] with a [name]
    and a [buffer]; a [StringIO] has neither. *)
Record text_handle : Type := mkText {
  t_id : nat;
  t_name : option file_name;
  t_has_buffer : bool
}.

(** What a caller may pass as [marc_target]. *)
Inductive marc_target : Type :=
| BinaryHandle (name : option file_name) (s : stream)
| TextHandle (h : text_handle)
| TextPayload (text : list N)           (* a [str] *)
| OtherObject (has_buffer : bool)       (* no [read], no [encode] *).

(** [**kwargs] *)
Record kwargs : Type := mkKwargs {
  kw_utf8_handling : option Py.errors_mode;
  kw_hide_utf8_warnings : option bool
}.

(** What the constructor acts on: the file system, the handles now open, a
    counter for fresh handle identities, and the order of closes and
    opens.  [fs w name] is what [open(name, 'rb')] meets: the bytes of the
    file, or the exception the call raises ([FileNotFoundError],
    [PermissionError], [IsADirectoryError], [OSError] for a descriptor that
    is no longer open, ...). *)
Record world : Type := mkWorld {
  fs : file_name -> list byte + exn;
  open_handles : list nat;
  next_id : nat;
  trace : list event
}.

(** [hasattr(t, "read")]; the [read] of a file object is a method. *)
Definition hasattr_read (t : marc_target) : bool :=
  match t with
  | BinaryHandle _ _ | TextHandle _ => true
  | TextPayload _ | OtherObject _ => false
  end.

(** [hasattr(t, "read") and isinstance(t.read, collections.Callable)].
    [and] evaluates its right operand only when the left one holds.  The
    name [collections.Callable] exists up to CPython 3.9 and was removed in
    3.10, where looking it up raises [AttributeError];
    [collections_Callable] says whether the interpreter has it. *)
Definition has_callable_read (collections_Callable : bool) (t : marc_target)
  : bool + exn :=
  if hasattr_read t then
    if collections_Callable then inl true else inr AttributeError
  else inl false.

(** [type(t) is BufferedReader], with the stream when it is. *)
Definition as_BufferedReader (t : marc_target) : option stream :=
  match t with
  | BinaryHandle _ s =>
    match s_type s with
    | BufferedReader => Some s
    | BytesIO => None
    end
  | _ => None
  end.

(** [t.name] *)
Definition attr_name (t : marc_target) : file_name + exn :=
  match t with
  | BinaryHandle (Some name) _ => inl name
  | TextHandle h =>
    match t_name h with
    | Some name => inl name
    | None => inr AttributeError
    end
  | _ => inr AttributeError
  end.

Definition hasattr_buffer (t : marc_target) : bool :=
  match t with
  | TextHandle h => t_has_buffer h
  | OtherObject has_buffer => has_buffer
  | BinaryHandle _ _ | TextPayload _ => false
  end.

Definition target_id (t : marc_target) : option nat :=
  match t with
  | BinaryHandle _ s => Some (s_id s)
  | TextHandle h => Some (t_id h)
  | _ => None
  end.

(** [t.close()] *)
Definition close (t : marc_target) : M world unit :=
  fun w =>
    match target_id t with
    | Some id =>
      (inl tt,
       mkWorld (fs w) (List.remove Nat.eq_dec id (open_handles w))
               (next_id w) (trace w ++ [Closed id]))
    | None => (inr AttributeError, w)
    end.

(** [open(name, 'rb')] *)
Definition open_rb (name : file_name) : M world stream :=
  fun w =>
    match fs w name with
    | inl data =>
      let id := next_id w in
      (inl (mkStream BufferedReader id false data 0),
       mkWorld (fs w) (id :: open_handles w) (S id)
               (trace w ++ [Opened name id]))
    | inr e => (inr e, w)
    end.

(** [BytesIO(raw_bytes)] *)
Definition BytesIO_new (raw_bytes : list byte) : M world stream :=
  fun w =>
    (inl (mkStream BytesIO (next_id w) false raw_bytes 0),
     mkWorld (fs w) (open_handles w) (S (next_id w)) (trace w)).

(** [t.encode(encoding='ascii', errors=mode)] *)
Definition encode (t : marc_target) (mode : Py.errors_mode) : list byte + exn :=
  match t with
  | TextPayload text => Py.encode_ascii mode text
  | _ => inr AttributeError
  end.

Section Normalizer.

(** [collections_Callable]: whether the interpreter still has the name
    [collections.Callable] (CPython before 3.10).
    [BufferedReader_]: [io.BufferedReader(obj)] for an object that has a
    [buffer] attribute but no [read] method; what the constructor makes of
    such an object is left open. *)
Variable collections_Callable : bool.
Variable BufferedReader_ : marc_target -> stream + exn.

Definition MARCReader_init (marc_target : marc_target) (kw : kwargs)
  : M world MARCReader :=
  let utf8_handling :=
    match kw_utf8_handling kw with
    | Some mode => mode
    | None => Py.strict
    end in
  let hide_utf8_warnings :=
    match kw_hide_utf8_warnings kw with
    | Some hide => hide
    | None => false
    end in
  byte_stream <-
    (readable <- lift (has_callable_read collections_Callable marc_target) ;;
     if (readable : bool) then
       match as_BufferedReader marc_target with
       | Some s => ret s
       | None =>
         filehandle_name <- lift (attr_name marc_target) ;;
         close marc_target ;;
         open_rb filehandle_name
       end
     else if hasattr_buffer marc_target then
       lift (BufferedReader_ marc_target)
     else
       raw_bytes <- lift (encode marc_target utf8_handling) ;;
       BytesIO_new ([] ++ raw_bytes)) ;;
  ret (mkReader utf8_handling hide_utf8_warnings byte_stream).

End Normalizer.

(** ** The legacy reader: [DepreciatedMARCReader] *)

(** The classes of the module with their bases, as the [class] statements
    give them. *)
Inductive pyclass : Type :=
| cls_object
| cls_Reader
| cls_MARCReader
| cls_DepreciatedMARCReader.

Definition base (c : pyclass) : option pyclass :=
  match c with
  | cls_object => None
  | cls_Reader => Some cls_object
  | cls_MARCReader => Some cls_Reader
  | cls_DepreciatedMARCReader => Some cls_Reader
  end.

Definition pyclass_eqb (a b : pyclass) : bool :=
  match a, b with
  | cls_object, cls_object
  | cls_Reader, cls_Reader
  | cls_MARCReader, cls_MARCReader
  | cls_DepreciatedMARCReader, cls_DepreciatedMARCReader => true
  | _, _ => false
  end.

(** The method resolution order: the class, then its chain of bases. *)
Fixpoint mro_from (depth : nat) (c : pyclass) : list pyclass :=
  match depth with
  | O => []
  | S depth' =>
    c :: match base c with
         | Some b => mro_from depth' b
         | None => []
         end
  end.

Definition mro (c : pyclass) : list pyclass := mro_from 4 c.

Fixpoint classes_after (cls : pyclass) (order : list pyclass)
  : option (list pyclass) :=
  match order with
  | [] => None
  | c :: rest => if pyclass_eqb c cls then Some rest else classes_after cls rest
  end.

(** [super(cls, self).__init__()] for [self] a direct instance of
    [self_cls].  [super] raises [TypeError] unless [self] is an instance of
    [cls]; otherwise [__init__] is looked up in the classes after [cls],
    none of which defines one before [object], whose [__init__] does
    nothing. *)
Definition super_init (cls self_cls : pyclass) : unit + exn :=
  match classes_after cls (mro self_cls) with
  | Some _ => inl tt
  | None => inr TypeError
  end.

(** [logging.error(msg)] while no reader state is at hand. *)
Definition world_logging_error (msg : string) : M world unit :=
  fun w =>
    (inl tt,
     mkWorld (fs w) (open_handles w) (next_id w) (trace w ++ [LogError msg])).

Module Depreciated.

Record DepreciatedMARCReader : Type := mkLegacy {
  to_unicode : bool;
  force_utf8 : bool;
  hide_utf8_warnings : bool;
  utf8_handling : Py.errors_mode;
  file_handle : stream
}.

Definition with_file_handle (r : DepreciatedMARCReader) (s : stream)
  : DepreciatedMARCReader :=
  mkLegacy (to_unicode r) (force_utf8 r) (hide_utf8_warnings r)
           (utf8_handling r) s.

(** [self.file_handle.read(size)] *)
Definition file_handle_read (size : Z) : M DepreciatedMARCReader (list byte) :=
  fun self =>
    let '(r, s') := stream_read (file_handle self) size in
    (r, with_file_handle self s').

Definition attr {A} (field : DepreciatedMARCReader -> A)
  : M DepreciatedMARCReader A :=
  fun self => (inl (field self), self).

Record TextIOWrapper : Type := mkWrapper { buffer : marc_target }.

Section Legacy.

(** [TextIOWrapper_accepts] and [BufferedReader_]: what the two [io]
    constructors make of an object, each returning or raising.  [Record_] is
    [pymarc.Record] with the keyword arguments this reader passes. *)
Variable pep515 : bool.
Variable record : Type.
Variable Record_ :
  list byte -> bool -> bool -> bool -> Py.errors_mode -> record + exn.
Variable TextIOWrapper_accepts : marc_target -> unit + exn.
Variable BufferedReader_ : marc_target -> stream + exn.

(** [TextIOWrapper(obj)]; the wrapper's [buffer] is [obj] itself. *)
Definition TextIOWrapper_ (obj : marc_target) : TextIOWrapper + exn :=
  match TextIOWrapper_accepts obj with
  | inl _ => inl (mkWrapper obj)
  | inr e => inr e
  end.

(** [DepreciatedMARCReader.__init__] *)
Definition init (marc_target : marc_target)
           (to_unicode force_utf8 hide_utf8_warnings : bool)
           (utf8_handling : Py.errors_mode)
  : M world DepreciatedMARCReader :=
  lift (super_init cls_MARCReader cls_DepreciatedMARCReader) ;;
  text_wrapper <-
    (if hasattr_buffer marc_target then lift (TextIOWrapper_ marc_target)
     else lift (TextIOWrapper_ marc_target)) ;;
  file_handle <- lift (BufferedReader_ (buffer text_wrapper)) ;;
  world_logging_error "SELF File handle type is <class '_io.BufferedReader'>" ;;
  ret (mkLegacy to_unicode force_utf8 hide_utf8_warnings utf8_handling
                file_handle).

(** [DepreciatedMARCReader.__next__] *)
Definition next : M DepreciatedMARCReader record :=
  first5 <- file_handle_read 5 ;;
  match first5 with
  | [] => raise StopIteration
  | _ :: _ =>
    if (length first5 <? 5)%nat then raise RecordLengthInvalid
    else
      length_ <- lift (Py.int_of_bytes pep515 first5) ;;
      chunk <- file_handle_read (length_ - 5) ;;
      let chunk := first5 ++ chunk in
      to_unicode <- attr to_unicode ;;
      force_utf8 <- attr force_utf8 ;;
      hide <- attr hide_utf8_warnings ;;
      mode <- attr utf8_handling ;;
      record <- lift (Record_ chunk to_unicode force_utf8 hide mode) ;;
      ret record
  end.

End Legacy.

End Depreciated.

(** ** The batch helper: [map_records] *)

(** How a call ends: it returns, it raises, or the step bound of the model
    ran out first. *)
Inductive completion : Type :=
| Done
| Failed (e : exn)
| Unfinished.

Section MapRecords.

(** [f] is the caller's function; it acts on a state of its own, of type
    [U], and returns or raises.  The targets in [files] are distinct
    objects: a stream is carried by value, so a handle listed twice would
    be read twice here, while the code finds it at its end the second
    time. *)
Variable pep515 : bool.
Variable collections_Callable : bool.
Variable record : Type.
Variable Record_ : pyval -> bool -> Py.errors_mode -> record + exn.
Variable BufferedReader_ : marc_target -> stream + exn.
Variable U : Type.
Variable f : option record -> U -> (unit + exn) * U.

(** [list(map(f, reader))]: [map] pulls an item with [__next__] and applies
    [f] to it; [list] goes on until a [StopIteration] comes out, be it from
    the reader or from [f], and lets every other exception through.  The
    list itself is thrown away. *)
Fixpoint list_map (steps : nat) (st : state) (u : U) : ending * state * U :=
  match steps with
  | O => (Pending, st, u)
  | S steps' =>
    match MARCReader_next pep515 Record_ st with
    | (inl item, st') =>
      match f item u with
      | (inl _, u') => list_map steps' st' u'
      | (inr StopIteration, u') => (Exhausted, st', u')
      | (inr e, u') => (Propagated e, st', u')
      end
    | (inr StopIteration, st') => (Exhausted, st', u)
    | (inr e, st') => (Propagated e, st', u)
    end
  end.

Definition with_trace (w : world) (events : list event) : world :=
  mkWorld (fs w) (open_handles w) (next_id w) events.

(** [map_records(f, *files)].  What the readers log goes to the same
    record of events as the closes and opens of the constructor.  Each
    loop gets one step more than its stream has bytes left. *)
Fixpoint map_records (files : list marc_target) (w : world) (u : U)
  : completion * world * U :=
  match files with
  | [] => (Done, w, u)
  | file :: files' =>
    match MARCReader_init collections_Callable BufferedReader_ file
                          (mkKwargs None None) w with
    | (inr e, w1) => (Failed e, w1, u)
    | (inl reader, w1) =>
      let steps := S (length (remaining (byte_stream reader))) in
      match list_map steps (mkState reader (trace w1)) u with
      | (Exhausted, st', u') => map_records files' (with_trace w1 (out st')) u'
      | (Propagated e, st', u') => (Failed e, with_trace w1 (out st'), u')
      | (Pending, st', u') => (Unfinished, with_trace w1 (out st'), u')
      end
    end
  end.

End MapRecords.

(** ** Vocabulary of the statements *)

(** The five-character, zero-padded decimal rendering of [n], as the MARC
    leader stores the record length. *)
Definition digit_byte (d : Z) : byte := Py.byte_of_code (48 + Z.to_N d).

Definition ascii_decimal5 (n : Z) : list byte :=
  [digit_byte (n / 10000 mod 10); digit_byte (n / 1000 mod 10);
   digit_byte (n / 100 mod 10); digit_byte (n / 10 mod 10);
   digit_byte (n mod 10)]%Z.

(** A well-formed record: its first five bytes spell its own length. *)
Definition well_formed (r : list byte) : Prop :=
  (Z.of_nat (length r) < 100000)%Z
  /\ firstn 5 r = ascii_decimal5 (Z.of_nat (length r)).

(** The bytes [int] can accept at all. *)
Definition int_char (b : byte) : bool :=
  match Py.digit_val b with
  | Some _ => true
  | None =>
    Py.is_space b || (Py.code b =? 43)%N || (Py.code b =? 45)%N
    || (Py.code b =? 95)%N
  end.

(** Views of the two [try] blocks of [__next__], used to state what a step
    that got as far as decoding leaves behind. *)
Definition chunk_after_decode (mode : Py.errors_mode) (raw : list byte) : pyval :=
  match Py.decode_utf8 mode raw with
  | inl text => PyStr text
  | inr _ => PyBytes raw
  end.

Definition decode_log (mode : Py.errors_mode) (raw : list byte) : list event :=
  match Py.decode_utf8 mode raw with
  | inl _ => []
  | inr TypeError => [LogError "TypeError chunk type is <class 'bytes'>"]
  | inr e => [LogError ("Cannot iterate, error=" ++ class_repr e)]
  end.

Definition returned {record} (built : record + exn) : option record :=
  match built with
  | inl r => Some r
  | inr _ => None
  end.

Definition build_log {record} (built : record + exn) : list event :=
  match built with
  | inl _ => []
  | inr e => [PrintExc e]
  end.

(** The decoding policy the constructor's keyword arguments select. *)
Definition configured_mode (kw : kwargs) : Py.errors_mode :=
  match kw_utf8_handling kw with
  | Some mode => mode
  | None => Py.strict
  end.

Definition configured_hide (kw : kwargs) : bool :=
  match kw_hide_utf8_warnings kw with
  | Some hide => hide
  | None => false
  end.

(** The state with the cursor [n] bytes further. *)
Definition at_offset (st : state) (n : nat) : state :=
  mkState (with_stream (self st) (advance (byte_stream (self st)) n)) (out st).

(** Two views of one stream that differ at most in the cursor. *)
Definition same_source (s s' : stream) : Prop :=
  s_type s' = s_type s /\ s_id s' = s_id s /\ s_closed s' = s_closed s
  /\ s_data s' = s_data s.



Section StepCases.

Variable pep515 : bool.
Variable record : Type.
Variable Record_ : pyval -> bool -> Py.errors_mode -> record + exn.

(** What the second read of a step takes when the prefix says [L]. *)
Definition remainder_for (L : Z) (tail : list byte) : list byte :=
  if (L - 5 <? 0)%Z then tail else firstn (Z.to_nat (L - 5)) tail.

(** The six ways a step can go, told apart by the stream alone. *)
Inductive step_case (st : state) : Prop :=
| case_closed :
    s_closed (byte_stream (self st)) = true ->
    MARCReader_next pep515 Record_ st = (inr ValueError, st) ->
    step_case st
| case_end :
    s_closed (byte_stream (self st)) = false ->
    remaining (byte_stream (self st)) = [] ->
    MARCReader_next pep515 Record_ st = (inr StopIteration, st) ->
    step_case st
| case_short :
    s_closed (byte_stream (self st)) = false ->
    1 <= length (remaining (byte_stream (self st))) < 5 ->
    MARCReader_next pep515 Record_ st
    = (inr RecordLengthInvalid,
       at_offset st (length (remaining (byte_stream (self st))))) ->
    step_case st
| case_not_a_number e :
    s_closed (byte_stream (self st)) = false ->
    5 <= length (remaining (byte_stream (self st))) ->
    Py.int_of_bytes pep515 (firstn 5 (remaining (byte_stream (self st)))) = inr e ->
    MARCReader_next pep515 Record_ st = (inr ValueError, at_offset st 5) ->
    step_case st
| case_bad_size L :
    s_closed (byte_stream (self st)) = false ->
    5 <= length (remaining (byte_stream (self st))) ->
    Py.int_of_bytes pep515 (firstn 5 (remaining (byte_stream (self st)))) = inl L ->
    s_type (byte_stream (self st)) = BufferedReader ->
    (L < 4)%Z ->
    MARCReader_next pep515 Record_ st = (inr ValueError, at_offset st 5) ->
    step_case st
| case_returns L :
    s_closed (byte_stream (self st)) = false ->
    5 <= length (remaining (byte_stream (self st))) ->
    Py.int_of_bytes pep515 (firstn 5 (remaining (byte_stream (self st)))) = inl L ->
    s_type (byte_stream (self st)) = BytesIO \/ (4 <= L)%Z ->
    (let mode := utf8_handling (self st) in
     let hide := hide_utf8_warnings (self st) in
     let first5 := firstn 5 (remaining (byte_stream (self st))) in
     let rest := remainder_for L (skipn 5 (remaining (byte_stream (self st)))) in
     let raw := first5 ++ rest in
     let built := Record_ (chunk_after_decode mode raw) hide mode in
     MARCReader_next pep515 Record_ st
     = (inl (returned built),
        mkState (self (at_offset st (length raw)))
                (out st ++ decode_log mode raw ++ build_log built))) ->
    step_case st.

End StepCases.

(** Bytes below 128, and text below U+0080. *)
Definition ascii_only (bs : list byte) : Prop :=
  Forall (fun b => (Py.code b < 128)%N) bs.

Definition ascii_text (text : list N) : Prop :=
  Forall (fun cp => (cp < 128)%N) text.

(** Sample data for concrete runs. *)
Definition bytes_of (s : string) : list byte := list_byte_of_string s.

(** A reader over an in-memory buffer, at its start, nothing logged. *)
Definition reader_over (mode : Py.errors_mode) (data : list byte) : state :=
  mkState (mkReader mode false (mkStream BytesIO 0 false data 0)) [].

(** A builder that keeps whatever it is handed, and one that rejects it. *)
Definition accept_all (chunk : pyval) (hide : bool) (mode : Py.errors_mode)
  : pyval + exn := inl chunk.

Definition reject_all (chunk : pyval) (hide : bool) (mode : Py.errors_mode)
  : pyval + exn := inr (OtherError "RecordLeaderInvalid").


(** A world with one readable file, open in text mode as handle 3, and one
    file that may not be read. *)
Definition sample_world : world :=
  mkWorld (fun name =>
             match name with
             | Path path =>
               if String.eqb path "marc.dat" then inl (bytes_of "00006A")
               else if String.eqb path "secret.dat"
                    then inr (OtherError "PermissionError")
                    else inr FileNotFoundError
             | Descriptor _ => inr (OtherError "OSError")
             end)
          [3] 4 [].

Definition text_file : marc_target :=
  TextHandle (mkText 3 (Some (Path "marc.dat")) true).

(** Handles of the same world named after a file that is not there, after
    one that may not be read, and after a descriptor. *)
Definition stale_text_file : marc_target :=
  TextHandle (mkText 3 (Some (Path "gone.dat")) true).

Definition secret_text_file : marc_target :=
  TextHandle (mkText 3 (Some (Path "secret.dat")) true).

Definition descriptor_text_file : marc_target :=
  TextHandle (mkText 3 (Some (Descriptor 0)) true).

(** An in-memory binary stream passed as a handle: it has [read] but no
    [name]. *)
Definition memory_file : marc_target :=
  BinaryHandle None (mkStream BytesIO 6 false (bytes_of "00006A") 0).

(** A legacy reader over an in-memory buffer, and two builders for it. *)
Definition legacy_over (data : list byte) : Depreciated.DepreciatedMARCReader :=
  Depreciated.mkLegacy false false false Py.strict
                       (mkStream BytesIO 0 false data 0).

Definition keep_bytes (chunk : list byte) (to_unicode force_utf8 hide : bool)
           (mode : Py.errors_mode) : pyval + exn := inl (PyBytes chunk).

Definition refuse_bytes (chunk : list byte) (to_unicode force_utf8 hide : bool)
           (mode : Py.errors_mode) : pyval + exn :=
  inr (OtherError "RecordLeaderInvalid").

(** A binary handle on the sample file, as [open("marc.dat", "rb")] gives
    it. *)
Definition binary_file : marc_target :=
  BinaryHandle (Some (Path "marc.dat"))
               (mkStream BufferedReader 5 false (bytes_of "00006A00007BC") 0).

Definition no_wrapping (t : marc_target) : stream + exn := inr AttributeError.

(** Proof steps used more than once. *)
Ltac fold_everywhere s :=
  repeat match goal with
         | H : _ |- _ => progress fold s in H
         end;
  try fold s.

Ltac settle_case :=
  repeat match goal with
         | H : _ /\ _ |- _ => destruct H
         | H : _ \/ _ |- _ => destruct H
         | H : @eq (_ + exn) _ _ |- _ => discriminate H
         | H : ?x = [] |- _ => rewrite H in *
         | H : Py.int_of_bytes _ _ = _ |- _ => rewrite H in *
         end;
  simpl in *; try congruence; try lia.

(** * Properties *)

(** ** The built-ins on sample inputs *)


Example int_plain : Py.int_of_bytes true (bytes_of "00030") = inl 30%Z.
Proof. reflexivity. Qed.
Example int_spaces : Py.int_of_bytes false (bytes_of " 30  ") = inl 30%Z.
Proof. reflexivity. Qed.
Example int_signed : Py.int_of_bytes false (bytes_of "-0030") = inl (-30)%Z.
Proof. reflexivity. Qed.
Example int_underscore_new : Py.int_of_bytes true (bytes_of "1_000") = inl 1000%Z.
Proof. reflexivity. Qed.
Example int_underscore_old : Py.int_of_bytes false (bytes_of "1_000") = inr ValueError.
Proof. reflexivity. Qed.
Example int_letters : Py.int_of_bytes true (bytes_of "abcde") = inr ValueError.
Proof. reflexivity. Qed.
Example int_inner_space : Py.int_of_bytes true (bytes_of "12 34") = inr ValueError.
Proof. reflexivity. Qed.

Example decode_e_acute :
  Py.decode_utf8 Py.strict [x63; xc3; xa9] = inl [99%N; 233%N].
Proof. reflexivity. Qed.
Example decode_euro :
  Py.decode_utf8 Py.strict [xe2; x82; xac] = inl [8364%N].
Proof. reflexivity. Qed.
Example decode_astral :
  Py.decode_utf8 Py.strict [xf0; x9f; x98; x80] = inl [128512%N].
Proof. reflexivity. Qed.
Example decode_overlong :
  Py.decode_utf8 Py.strict [xc0; x80] = inr UnicodeDecodeError.
Proof. reflexivity. Qed.
Example decode_surrogate :
  Py.decode_utf8 Py.strict [xed; xa0; x80] = inr UnicodeDecodeError.
Proof. reflexivity. Qed.
Example decode_replace :
  Py.decode_utf8 Py.replace [x61; xe2; x82; x62; xff]
  = inl [97%N; 65533%N; 98%N; 65533%N].
Proof. reflexivity. Qed.
Example decode_ignore :
  Py.decode_utf8 Py.ignore [x61; xe2; x82; x62; xff] = inl [97%N; 98%N].
Proof. reflexivity. Qed.
Example decode_xmlcharref :
  Py.decode_utf8 Py.xmlcharrefreplace [x61; xff] = inr TypeError.
Proof. reflexivity. Qed.
Example encode_xmlcharref :
  Py.encode_ascii Py.xmlcharrefreplace [97%N; 233%N] = inl (bytes_of "a&#233;").
Proof. reflexivity. Qed.
Example encode_strict :
  Py.encode_ascii Py.strict [97%N; 233%N] = inr UnicodeEncodeError.
Proof. reflexivity. Qed.


(** ** The loop on sample inputs *)

Example one_record_then_end :
  let data := bytes_of "00030" ++ repeat x2e 25 in
  iterate true accept_all 5 (reader_over Py.strict data)
  = ([Some (PyStr (map Py.code data))], Exhausted,
     mkState (mkReader Py.strict false (mkStream BytesIO 0 false data 30)) []).
Proof. reflexivity. Qed.

Example two_records_in_order :
  fst (fst (iterate true accept_all 5
              (reader_over Py.strict (bytes_of "00006A00007BC"))))
  = [Some (PyStr (map Py.code (bytes_of "00006A")));
     Some (PyStr (map Py.code (bytes_of "00007BC")))].
Proof. reflexivity. Qed.

Example three_bytes_only :
  fst (iterate true accept_all 5 (reader_over Py.strict (bytes_of "000")))
  = ([], Propagated RecordLengthInvalid).
Proof. reflexivity. Qed.

Example replace_decodes :
  fst (fst (iterate true accept_all 5
              (reader_over Py.replace (bytes_of "00006" ++ [xff]))))
  = [Some (PyStr (map Py.code (bytes_of "00006") ++ [65533%N]))].
Proof. reflexivity. Qed.

(** ** Streams *)

Lemma advance_0 (s : stream) : advance s 0 = s.
Proof. destruct s; unfold advance; simpl; now rewrite Nat.add_0_r. Qed.

Lemma remaining_advance (s : stream) (n : nat) :
  remaining (advance s n) = skipn n (remaining s).
Proof.
  unfold remaining, advance; simpl.
  now rewrite Nat.add_comm, skipn_skipn.
Qed.

(** An open stream asked for [n >= 0] bytes hands out the next [n], or all
    that is left. *)
Lemma stream_read_open (s : stream) (n : nat) :
  s_closed s = false ->
  stream_read s (Z.of_nat n)
  = (inl (firstn n (remaining s)),
     advance s (length (firstn n (remaining s)))).
Proof.
  intros Hopen. unfold stream_read. rewrite Hopen.
  assert (Hneg : (Z.of_nat n <? 0)%Z = false) by (apply Z.ltb_ge; lia).
  assert (Hlow : (Z.of_nat n <? -1)%Z = false) by (apply Z.ltb_ge; lia).
  rewrite Hneg, Hlow, Nat2Z.id. now destruct (s_type s).
Qed.

Lemma stream_read_keeps (s s' : stream) (size : Z) (r : list byte + exn) :
  stream_read s size = (r, s') ->
  s_closed s' = s_closed s /\ s_type s' = s_type s /\ s_data s' = s_data s
  /\ s_id s' = s_id s.
Proof.
  unfold stream_read.
  destruct (s_closed s) eqn:Hc; [intros [= <- <-]; auto|].
  destruct (s_type s) eqn:Ht.
  - destruct (size <? -1)%Z; intros [= <- <-]; simpl; auto.
  - intros [= <- <-]; simpl; auto.
Qed.

(** A successful read returns a prefix of what was left and moves the
    cursor by its length. *)
Lemma stream_read_inl (s s' : stream) (size : Z) (got : list byte) :
  stream_read s size = (inl got, s') ->
  s' = advance s (length got)
  /\ got = firstn (length got) (remaining s)
  /\ ((0 <= size)%Z -> (length got <= Z.to_nat size)%nat).
Proof.
  unfold stream_read.
  destruct (s_closed s); [discriminate|].
  assert (Hgot : forall g,
             g = (if (size <? 0)%Z then remaining s
                  else firstn (Z.to_nat size) (remaining s)) ->
             g = firstn (length g) (remaining s)
             /\ ((0 <= size)%Z -> (length g <= Z.to_nat size)%nat)).
  { intros g ->. destruct (size <? 0)%Z eqn:Hs.
    - split; [now rewrite firstn_all|]. apply Z.ltb_lt in Hs. lia.
    - split.
      + rewrite length_firstn.
        destruct (Nat.le_ge_cases (Z.to_nat size) (length (remaining s))).
        * now rewrite Nat.min_l.
        * rewrite Nat.min_r by assumption.
          now rewrite !firstn_all2 by lia.
      + intros _. rewrite length_firstn. lia. }
  destruct (s_type s).
  - destruct (size <? -1)%Z; [discriminate|].
    intros [= <- <-]. split; [reflexivity|]. now apply Hgot.
  - intros [= <- <-]. split; [reflexivity|]. now apply Hgot.
Qed.

(** At the end of the data a read for five bytes returns nothing and
    leaves the stream as it was. *)
Lemma stream_read_eof (s : stream) :
  s_closed s = false -> remaining s = [] ->
  stream_read s 5 = (inl [], s).
Proof.
  intros Hopen Hrem.
  change 5%Z with (Z.of_nat 5). rewrite stream_read_open by assumption.
  rewrite Hrem. simpl. now rewrite advance_0.
Qed.

Lemma stream_read_nothing (s s' : stream) :
  stream_read s 5 = (inl [], s') -> s' = s /\ remaining s = [] /\ s_closed s = false.
Proof.
  intros H. pose proof (stream_read_inl _ _ H) as (-> & _ & _).
  simpl. rewrite advance_0. split; [reflexivity|].
  unfold stream_read in H. destruct (s_closed s); [discriminate|].
  split; [|reflexivity].
  change (5 <? 0)%Z with false in H.
  change (5 <? -1)%Z with false in H.
  assert (Hf : firstn (Z.to_nat 5) (remaining s) = []).
  { destruct (s_type s); now injection H. }
  destruct (remaining s); [reflexivity|discriminate].
Qed.

(** ** The length prefix *)

Lemma digit_byte_facts (d : Z) :
  (0 <= d < 10)%Z ->
  Py.digit_val (digit_byte d) = Some d
  /\ Py.is_space (digit_byte d) = false
  /\ (Py.code (digit_byte d) =? 43)%N = false
  /\ (Py.code (digit_byte d) =? 45)%N = false.
Proof.
  intros Hd.
  assert (Hcases : (d = 0 \/ d = 1 \/ d = 2 \/ d = 3 \/ d = 4 \/ d = 5
                    \/ d = 6 \/ d = 7 \/ d = 8 \/ d = 9)%Z) by lia.
  repeat (destruct Hcases as [-> | Hcases]; [repeat split; reflexivity|]).
  subst d. repeat split; reflexivity.
Qed.

Lemma scan_digits_digit p prev acc b r d :
  Py.digit_val b = Some d ->
  Py.scan_digits p prev acc (b :: r)
  = Py.scan_digits p Py.AfterDigit (10 * acc + d)%Z r.
Proof. intros H. simpl. now rewrite H. Qed.

Lemma int_of_ascii_decimal5 (p : bool) (n : Z) :
  (0 <= n < 100000)%Z ->
  Py.int_of_bytes p (ascii_decimal5 n) = inl n.
Proof.
  intros Hn. unfold ascii_decimal5.
  destruct (digit_byte_facts (d := n / 10000 mod 10)
              ltac:(apply Z.mod_pos_bound; lia)) as (D4 & S4 & P4 & M4).
  destruct (digit_byte_facts (d := n / 1000 mod 10)
              ltac:(apply Z.mod_pos_bound; lia)) as (D3 & _).
  destruct (digit_byte_facts (d := n / 100 mod 10)
              ltac:(apply Z.mod_pos_bound; lia)) as (D2 & _).
  destruct (digit_byte_facts (d := n / 10 mod 10)
              ltac:(apply Z.mod_pos_bound; lia)) as (D1 & _).
  destruct (digit_byte_facts (d := n mod 10)
              ltac:(apply Z.mod_pos_bound; lia)) as (D0 & _).
  unfold Py.int_of_bytes.
  cbn [Py.skip_space]. rewrite S4, P4, M4.
  rewrite (@scan_digits_digit _ _ _ _ _ _ D4), (@scan_digits_digit _ _ _ _ _ _ D3),
          (@scan_digits_digit _ _ _ _ _ _ D2), (@scan_digits_digit _ _ _ _ _ _ D1),
          (@scan_digits_digit _ _ _ _ _ _ D0).
  cbn [Py.scan_digits Py.skip_space].
  f_equal. Z.div_mod_to_equations. lia.
Qed.

Lemma int_of_bytes_raises p bs e :
  Py.int_of_bytes p bs = inr e -> e = ValueError.
Proof.
  unfold Py.int_of_bytes.
  destruct (match Py.skip_space bs with
            | [] => (false, Py.skip_space bs)
            | b :: r =>
              if (Py.code b =? 43)%N then (false, r)
              else if (Py.code b =? 45)%N then (true, r)
              else (false, Py.skip_space bs)
            end) as [neg s].
  destruct (Py.scan_digits p Py.AtStart 0 s) as [[v rest]|];
    [destruct (Py.skip_space rest)|]; congruence.
Qed.

Lemma skip_space_split bs :
  exists pre, bs = pre ++ Py.skip_space bs /\ forallb Py.is_space pre = true.
Proof.
  induction bs as [|b r (pre & Hr & Hpre)]; [now exists []|].
  simpl. destruct (Py.is_space b) eqn:Hb.
  - exists (b :: pre). simpl. now rewrite Hb, Hpre, <- Hr.
  - now exists [].
Qed.

Lemma is_space_int_char bs :
  forallb Py.is_space bs = true -> forallb int_char bs = true.
Proof.
  induction bs as [|b r IH]; [reflexivity|]. simpl.
  intros [Hb Hr]%andb_prop. rewrite (IH Hr), andb_true_r.
  unfold int_char. rewrite Hb. now destruct (Py.digit_val b).
Qed.

Lemma scan_digits_split p bs : forall prev acc v rest,
  Py.scan_digits p prev acc bs = Some (v, rest) ->
  exists pre, bs = pre ++ rest /\ forallb int_char pre = true.
Proof.
  induction bs as [|b r IH]; intros prev acc v rest.
  - simpl. destruct prev; intros [= <- <-] || discriminate. now exists [].
  - simpl. destruct (Py.digit_val b) as [d|] eqn:Hd.
    + intros (pre & -> & Hpre)%IH. exists (b :: pre). split; [reflexivity|].
      simpl. unfold int_char at 1. now rewrite Hd.
    + destruct (p && (Py.code b =? 95)%N) eqn:Hu.
      * destruct prev; try discriminate.
        intros (pre & -> & Hpre)%IH. exists (b :: pre). split; [reflexivity|].
        simpl. unfold int_char at 1. rewrite Hd.
        apply andb_prop in Hu as [_ ->]. now rewrite !orb_true_r.
      * destruct prev; intros [= <- <-] || discriminate. now exists [].
Qed.

(** When [int] accepts a buffer, every byte of it is a digit, white space,
    a sign or an underscore. *)
Lemma int_of_bytes_alphabet p bs v :
  Py.int_of_bytes p bs = inl v -> forallb int_char bs = true.
Proof.
  unfold Py.int_of_bytes.
  destruct (skip_space_split bs) as (pre & Hbs & Hpre).
  rewrite Hbs at 2. rewrite forallb_app, (is_space_int_char _ Hpre). simpl.
  destruct (Py.skip_space bs) as [|b r] eqn:Hs; [discriminate|].
  assert (Hscan : forall s v rest,
             Py.scan_digits p Py.AtStart 0 s = Some (v, rest) ->
             Py.skip_space rest = [] -> forallb int_char s = true).
  { intros s v0 rest (mid & -> & Hmid)%scan_digits_split Hrest.
    destruct (skip_space_split rest) as (post & Hpost & Hsp).
    rewrite Hrest, app_nil_r in Hpost. subst post.
    now rewrite forallb_app, Hmid, (is_space_int_char _ Hsp). }
  assert (Hsign : forall c, (Py.code b =? c)%N = true ->
                       c = 43%N \/ c = 45%N -> int_char b = true).
  { intros c Hc Hor. unfold int_char.
    destruct (Py.digit_val b); [reflexivity|].
    destruct Hor as [-> | ->]; rewrite Hc; simpl; now rewrite ?orb_true_r. }
  destruct (Py.code b =? 43)%N eqn:Hplus;
    [|destruct (Py.code b =? 45)%N eqn:Hminus].
  - destruct (Py.scan_digits p Py.AtStart 0 r) as [[v0 rest]|] eqn:Hr;
      [|discriminate].
    destruct (Py.skip_space rest) eqn:Hrest; [|discriminate]. intros _.
    simpl. rewrite (Hsign 43%N Hplus (or_introl eq_refl)).
    now rewrite (Hscan _ _ _ Hr Hrest).
  - destruct (Py.scan_digits p Py.AtStart 0 r) as [[v0 rest]|] eqn:Hr;
      [|discriminate].
    destruct (Py.skip_space rest) eqn:Hrest; [|discriminate]. intros _.
    simpl. rewrite (Hsign 45%N Hminus (or_intror eq_refl)).
    now rewrite (Hscan _ _ _ Hr Hrest).
  - destruct (Py.scan_digits p Py.AtStart 0 (b :: r)) as [[v0 rest]|] eqn:Hr;
      [|discriminate].
    destruct (Py.skip_space rest) eqn:Hrest; [|discriminate]. intros _.
    now rewrite (Hscan _ _ _ Hr Hrest).
Qed.

(** ** The UTF-8 decoder *)

Lemma emit_raises mode e x :
  Py.emit mode e = inr x ->
  (mode = Py.strict /\ x = UnicodeDecodeError)
  \/ (mode = Py.xmlcharrefreplace /\ x = TypeError).
Proof.
  destruct e; simpl; try discriminate.
  destruct mode; simpl; intros [= <-]; auto.
Qed.

(** The codec raises only through its error handler: [UnicodeDecodeError]
    under [strict], [TypeError] under [xmlcharrefreplace] (which cannot
    handle decoding errors). *)
Lemma decode_from_raises mode bs : forall st x,
  Py.decode_from mode st bs = inr x ->
  (mode = Py.strict /\ x = UnicodeDecodeError)
  \/ (mode = Py.xmlcharrefreplace /\ x = TypeError).
Proof.
  induction bs as [|b r IH]; intros st x; simpl.
  - destruct st; [discriminate|]. apply (@emit_raises mode Py.Malformed).
  - destruct (Py.feed st (Py.code b)) as [[e1 e2] st'].
    destruct (Py.emit mode e1) eqn:H1; [|intros [= <-]; eauto using emit_raises].
    destruct (Py.emit mode e2) eqn:H2; [|intros [= <-]; eauto using emit_raises].
    destruct (Py.decode_from mode st' r) eqn:H3; [discriminate|].
    intros [= <-]. eauto.
Qed.

Lemma decode_utf8_raises mode bs x :
  Py.decode_utf8 mode bs = inr x ->
  (mode = Py.strict /\ x = UnicodeDecodeError)
  \/ (mode = Py.xmlcharrefreplace /\ x = TypeError).
Proof. apply decode_from_raises. Qed.

(** Under [replace] and [ignore] decoding always succeeds. *)
Lemma decode_utf8_lenient mode bs :
  mode = Py.replace \/ mode = Py.ignore ->
  exists text, Py.decode_utf8 mode bs = inl text.
Proof.
  intros Hmode. destruct (Py.decode_utf8 mode bs) as [text|x] eqn:H; [eauto|].
  apply decode_utf8_raises in H.
  destruct Hmode, H as [[? _] | [? _]]; congruence.
Qed.

(** ** One iteration step *)

Lemma byte_stream_read_inv size st r st1 :
  byte_stream_read size st = (r, st1) ->
  exists s1, stream_read (byte_stream (self st)) size = (r, s1)
             /\ st1 = mkState (with_stream (self st) s1) (out st).
Proof.
  unfold byte_stream_read.
  destruct (stream_read (byte_stream (self st)) size) as [r' s1].
  intros [= <- <-]. eauto.
Qed.

Section FramerFacts.

Variable pep515 : bool.
Variable record : Type.
Variable Record_ : pyval -> bool -> Py.errors_mode -> record + exn.

Local Abbreviation next := (MARCReader_next pep515 Record_).

Lemma next_read_raises st e st1 :
  byte_stream_read 5 st = (inr e, st1) -> next st = (inr e, st1).
Proof. intros H. unfold MARCReader_next, bind. now rewrite H. Qed.

Lemma next_StopIteration st st1 :
  byte_stream_read 5 st = (inl [], st1) -> next st = (inr StopIteration, st1).
Proof. intros H. unfold MARCReader_next, bind. now rewrite H. Qed.

Lemma next_RecordLengthInvalid st first5 st1 :
  byte_stream_read 5 st = (inl first5, st1) ->
  1 <= length first5 < 5 ->
  next st = (inr RecordLengthInvalid, st1).
Proof.
  intros H Hlen. unfold MARCReader_next, bind. rewrite H.
  destruct first5 as [|b r]; [simpl in Hlen; lia|].
  now rewrite (proj2 (Nat.ltb_lt _ _) (proj2 Hlen)).
Qed.

Lemma next_ValueError_prefix st first5 st1 e :
  byte_stream_read 5 st = (inl first5, st1) ->
  length first5 = 5 ->
  Py.int_of_bytes pep515 first5 = inr e ->
  next st = (inr ValueError, st1).
Proof.
  intros H Hlen Hint. unfold MARCReader_next, bind. rewrite H.
  destruct first5 as [|b r]; [discriminate|].
  rewrite (proj2 (Nat.ltb_ge _ _)) by lia.
  unfold lift. rewrite Hint. now rewrite (int_of_bytes_raises _ _ Hint).
Qed.

Lemma next_remainder_raises st first5 st1 L e st2 :
  byte_stream_read 5 st = (inl first5, st1) ->
  length first5 = 5 ->
  Py.int_of_bytes pep515 first5 = inl L ->
  byte_stream_read (L - 5) st1 = (inr e, st2) ->
  next st = (inr e, st2).
Proof.
  intros H Hlen Hint Hrest. unfold MARCReader_next, bind. rewrite H.
  destruct first5 as [|b r]; [discriminate|].
  rewrite (proj2 (Nat.ltb_ge _ _)) by lia.
  unfold lift. now rewrite Hint, Hrest.
Qed.

(** A step whose two reads succeed returns: the builder's record, or
    [None] when the builder raises. *)
Lemma next_returns st first5 st1 L rest st2 :
  byte_stream_read 5 st = (inl first5, st1) ->
  length first5 = 5 ->
  Py.int_of_bytes pep515 first5 = inl L ->
  byte_stream_read (L - 5) st1 = (inl rest, st2) ->
  let mode := utf8_handling (self st) in
  let hide := hide_utf8_warnings (self st) in
  let raw := first5 ++ rest in
  let built := Record_ (chunk_after_decode mode raw) hide mode in
  next st = (inl (returned built),
             mkState (self st2) (out st ++ decode_log mode raw ++ build_log built)).
Proof.
  intros H Hlen Hint Hrest mode hide raw built.
  destruct (byte_stream_read_inv _ _ H) as (s1 & _ & ->).
  destruct (byte_stream_read_inv _ _ Hrest) as (s2 & _ & Hst2).
  simpl in Hst2.
  unfold MARCReader_next, bind. rewrite H.
  destruct first5 as [|b r]; [discriminate|].
  rewrite (proj2 (Nat.ltb_ge _ _)) by lia.
  unfold lift at 1. rewrite Hint, Hrest. subst st2.
  unfold try_except, bind, attr, lift, ret, logging_error,
    traceback_print_exc. cbn [self out with_stream utf8_handling
    hide_utf8_warnings byte_stream].
  subst built mode hide. unfold chunk_after_decode, decode_log.
  fold raw.
  destruct (Py.decode_utf8 (utf8_handling (self st)) raw) as [text|x].
  - destruct (Record_ (PyStr text) _ _); simpl; now rewrite ?app_nil_r.
  - destruct x; cbn [self out with_stream utf8_handling
      hide_utf8_warnings byte_stream];
      destruct (Record_ (PyBytes raw) _ _); simpl;
      now rewrite ?app_nil_r, <- ?app_assoc.
Qed.

Lemma stream_read_raises s size e s' :
  stream_read s size = (inr e, s') -> e = ValueError /\ s' = s.
Proof.
  unfold stream_read. destruct (s_closed s); [now intros [= <- <-]|].
  destruct (s_type s); [|discriminate].
  destruct (size <? -1)%Z; [now intros [= <- <-]|discriminate].
Qed.

Lemma advance_advance s a b : advance (advance s a) b = advance s (a + b).
Proof. unfold advance; simpl. now rewrite Nat.add_assoc. Qed.

(** The same step, read off the bytes in front of the cursor: a prefix
    that parses to [L >= 5], then as much of the remainder as is there. *)
Lemma next_on_content st first5 tail L :
  let s := byte_stream (self st) in
  let mode := utf8_handling (self st) in
  let hide := hide_utf8_warnings (self st) in
  s_closed s = false ->
  remaining s = first5 ++ tail ->
  length first5 = 5 ->
  Py.int_of_bytes pep515 first5 = inl L ->
  (5 <= L)%Z ->
  let rest := firstn (Z.to_nat (L - 5)) tail in
  let raw := first5 ++ rest in
  let built := Record_ (chunk_after_decode mode raw) hide mode in
  next st
  = (inl (returned built),
     mkState (with_stream (self st) (advance s (length raw)))
             (out st ++ decode_log mode raw ++ build_log built)).
Proof.
  intros s mode hide Hopen Hrem Hlen Hint HL rest raw built.
  assert (H5 : byte_stream_read 5 st
               = (inl first5,
                  mkState (with_stream (self st) (advance s 5)) (out st))).
  { unfold byte_stream_read. fold s. change 5%Z with (Z.of_nat 5).
    rewrite stream_read_open by assumption.
    rewrite Hrem, firstn_app, Hlen, Nat.sub_diag, firstn_all2 by lia.
    simpl. now rewrite app_nil_r, Hlen. }
  assert (Hr : byte_stream_read (L - 5)
                 (mkState (with_stream (self st) (advance s 5)) (out st))
               = (inl rest,
                  mkState (with_stream (self st) (advance s (length raw)))
                          (out st))).
  { unfold byte_stream_read. cbn [self out with_stream byte_stream].
    rewrite <- (Z2Nat.id (L - 5)) by lia.
    rewrite stream_read_open by assumption.
    rewrite remaining_advance. fold s. rewrite Hrem.
    rewrite skipn_app, Hlen, Nat.sub_diag, skipn_all2 by lia. simpl.
    fold rest. rewrite advance_advance.
    unfold raw. now rewrite length_app, Hlen. }
  rewrite (next_returns _ H5 Hlen Hint Hr). reflexivity.
Qed.

End FramerFacts.

(** ** The iteration contract *)

Section IterationContract.

Variable pep515 : bool.
Variable record : Type.
Variable Record_ : pyval -> bool -> Py.errors_mode -> record + exn.

Local Abbreviation next := (MARCReader_next pep515 Record_).

(** C4.  What the read of the length prefix returns decides the step: no
    bytes, and the step raises [StopIteration]; one to four bytes, and it
    raises [RecordLengthInvalid]; five bytes, and it goes on to parse
    them and to read the remainder: it then raises neither of the two,
    but either fails in [int] or in the second read with [ValueError] or
    returns what the record builder makes of prefix plus remainder. *)
Theorem C4_prefix_read_decides_step st first5 st1 :
  byte_stream_read 5 st = (inl first5, st1) ->
  let mode := utf8_handling (self st) in
  let hide := hide_utf8_warnings (self st) in
  length first5 <= 5
  /\ (length first5 = 0 -> next st = (inr StopIteration, st1))
  /\ (1 <= length first5 <= 4 -> next st = (inr RecordLengthInvalid, st1))
  /\ (length first5 = 5 ->
      fst (next st) <> inr StopIteration
      /\ fst (next st) <> inr RecordLengthInvalid
      /\ match Py.int_of_bytes pep515 first5 with
         | inr _ => next st = (inr ValueError, st1)
         | inl L =>
           match byte_stream_read (L - 5) st1 with
           | (inr _, st2) => next st = (inr ValueError, st2)
           | (inl rest, st2) =>
             exists log,
             next st
             = (inl (returned (Record_ (chunk_after_decode mode (first5 ++ rest))
                                       hide mode)),
                mkState (self st2) log)
           end
         end).
Proof.
  intros H mode hide. split; [|split; [|split]].
  - destruct (byte_stream_read_inv _ _ H) as (s1 & Hs & _).
    apply stream_read_inl in Hs as (_ & _ & Hle).
    specialize (Hle ltac:(lia)). simpl in Hle. lia.
  - intros Hlen. destruct first5; [|discriminate].
    now apply next_StopIteration.
  - intros Hlen. apply next_RecordLengthInvalid with (first5 := first5);
      [assumption | lia].
  - intros Hlen.
    assert (Hshape :
              match Py.int_of_bytes pep515 first5 with
              | inr _ => next st = (inr ValueError, st1)
              | inl L =>
                match byte_stream_read (L - 5) st1 with
                | (inr _, st2) => next st = (inr ValueError, st2)
                | (inl rest, st2) =>
                  exists log,
                  next st
                  = (inl (returned
                            (Record_ (chunk_after_decode mode (first5 ++ rest))
                                     hide mode)),
                     mkState (self st2) log)
                end
              end).
    { destruct (Py.int_of_bytes pep515 first5) as [L|e] eqn:Hint.
      - destruct (byte_stream_read (L - 5) st1) as [[rest|e] st2] eqn:Hr.
        + pose proof (@next_returns pep515 record Record_ _ _ _ _ _ _
                        H Hlen Hint Hr) as Hn.
          cbv zeta in Hn. rewrite Hn. eauto.
        + rewrite (@next_remainder_raises pep515 record Record_ _ _ _ _ _ _
                     H Hlen Hint Hr).
          destruct (byte_stream_read_inv _ _ Hr) as (s2 & Hs & _).
          now apply stream_read_raises in Hs as [-> _].
      - exact (@next_ValueError_prefix pep515 record Record_ _ _ _ _
                 H Hlen Hint). }
    split; [|split; [|exact Hshape]];
      (destruct (Py.int_of_bytes pep515 first5);
       [destruct (byte_stream_read _ st1) as [[rest|e] st2];
        [destruct Hshape as [log ->] | rewrite Hshape]
       | rewrite Hshape]; discriminate).
Qed.

Lemma exhausted_fixpoint st st1 :
  byte_stream_read 5 st = (inl [], st1) ->
  st1 = st /\ next st = (inr StopIteration, st).
Proof.
  intros H. assert (Hst : st1 = st).
  { destruct (byte_stream_read_inv _ _ H) as (s1 & Hs & ->).
    apply stream_read_nothing in Hs as (-> & _ & _).
    destruct st as [[mode hide s] log]. reflexivity. }
  split; [assumption|].
  rewrite (@next_StopIteration pep515 record Record_ _ _ H). now rewrite Hst.
Qed.

(** C6.  Once a read for a length prefix has returned no bytes, the
    reader is exhausted for good: every later call of [__next__] raises
    [StopIteration] and returns no record, the state does not move, the
    next prefix read is empty again, and a loop over the reader ends at
    once with no items.  A reader over an empty input is in that state
    from the start. *)
Theorem C6_exhausted_reader_stays_exhausted :
  (forall st st1,
      byte_stream_read 5 st = (inl [], st1) ->
      forall n,
        after_calls pep515 Record_ n st = st
        /\ next (after_calls pep515 Record_ n st) = (inr StopIteration, st)
        /\ byte_stream_read 5 (after_calls pep515 Record_ n st) = (inl [], st)
        /\ iterate pep515 Record_ (S n) st = ([], Exhausted, st))
  /\ (forall st,
         s_closed (byte_stream (self st)) = false ->
         s_data (byte_stream (self st)) = [] ->
         forall n, iterate pep515 Record_ (S n) st = ([], Exhausted, st)).
Proof.
  assert (Hmain : forall st st1,
             byte_stream_read 5 st = (inl [], st1) ->
             forall n,
               after_calls pep515 Record_ n st = st
               /\ next (after_calls pep515 Record_ n st) = (inr StopIteration, st)
               /\ byte_stream_read 5 (after_calls pep515 Record_ n st) = (inl [], st)
               /\ iterate pep515 Record_ (S n) st = ([], Exhausted, st)).
  { intros st st1 H n.
    destruct (exhausted_fixpoint _ H) as [-> Hnext].
    assert (Hfix : after_calls pep515 Record_ n st = st).
    { induction n as [|n IH]; [reflexivity|]. simpl. now rewrite Hnext. }
    rewrite Hfix. repeat split; try assumption.
    simpl. now rewrite Hnext. }
  split; [exact Hmain|].
  intros st Hopen Hdata n.
  assert (H : byte_stream_read 5 st = (inl [], st)).
  { unfold byte_stream_read. rewrite stream_read_eof; try assumption.
    - destruct st as [[mode hide s] log]. reflexivity.
    - unfold remaining. rewrite Hdata. now destruct (s_pos _). }
  apply (Hmain st st H n).
Qed.

End IterationContract.

Lemma C4_prefix_read_decides_step_witness :
  MARCReader_next true accept_all (reader_over Py.strict (bytes_of "000"))
  = (inr RecordLengthInvalid,
     mkState (mkReader Py.strict false
                       (mkStream BytesIO 0 false (bytes_of "000") 3)) []).
Proof.
  refine (proj1 (proj2 (proj2
            (@C4_prefix_read_decides_step true pyval accept_all
               (reader_over Py.strict (bytes_of "000")) (bytes_of "000")
               _ eq_refl))) _).
  simpl. lia.
Defined.

Lemma C6_exhausted_reader_stays_exhausted_witness :
  let st := reader_over Py.strict [] in
  MARCReader_next true accept_all (after_calls true accept_all 2 st)
  = (inr StopIteration, st)
  /\ iterate true accept_all 3 st = ([], Exhausted, st).
Proof.
  intros st. split.
  - exact (proj1 (proj2
             (proj1 (@C6_exhausted_reader_stays_exhausted true pyval accept_all)
                    st st eq_refl 2))).
  - exact (proj2 (@C6_exhausted_reader_stays_exhausted true pyval accept_all)
                 st eq_refl eq_refl 2).
Defined.

(** ** Framing errors *)

Section FramingErrors.

Variable pep515 : bool.
Variable record : Type.
Variable Record_ : pyval -> bool -> Py.errors_mode -> record + exn.

Local Abbreviation next := (MARCReader_next pep515 Record_).

(** A step over a complete record: prefix, the [L - 5] bytes it
    announces, then whatever follows. *)
Lemma next_on_record st first5 body tail L :
  let s := byte_stream (self st) in
  let mode := utf8_handling (self st) in
  let hide := hide_utf8_warnings (self st) in
  s_closed s = false ->
  remaining s = first5 ++ body ++ tail ->
  length first5 = 5 ->
  Py.int_of_bytes pep515 first5 = inl L ->
  (Z.of_nat (length body) = L - 5)%Z ->
  let raw := first5 ++ body in
  let built := Record_ (chunk_after_decode mode raw) hide mode in
  next st
  = (inl (returned built),
     mkState (with_stream (self st) (advance s (length raw)))
             (out st ++ decode_log mode raw ++ build_log built))
  /\ remaining (advance s (length raw)) = tail.
Proof.
  intros s mode hide Hopen Hrem Hlen Hint Hbody raw built.
  pose proof (@next_on_content pep515 record Record_ st first5
                (body ++ tail) L Hopen Hrem Hlen Hint ltac:(lia)) as Hn.
  cbv zeta in Hn.
  replace (Z.to_nat (L - 5)) with (length body) in Hn by lia.
  rewrite firstn_app, Nat.sub_diag, firstn_all in Hn.
  simpl in Hn. rewrite app_nil_r in Hn.
  split; [exact Hn|].
  rewrite remaining_advance. fold s. rewrite Hrem, app_assoc.
  rewrite skipn_app. fold raw.
  now rewrite Nat.sub_diag, skipn_all.
Qed.

(** C3 (amended).  When the five prefix bytes are not a literal [int]
    accepts (in particular when one of them is neither a digit, white
    space, a sign nor an underscore), the step raises the built-in's
    [ValueError]; no record is returned and the cursor stands five bytes
    further. *)
Theorem C3_rejected_prefix_raises_ValueError st first5 st1 :
  byte_stream_read 5 st = (inl first5, st1) ->
  length first5 = 5 ->
  forallb int_char first5 = false
  \/ (exists e, Py.int_of_bytes pep515 first5 = inr e) ->
  next st = (inr ValueError, st1)
  /\ s_pos (byte_stream (self st1)) = s_pos (byte_stream (self st)) + 5.
Proof.
  intros H Hlen Hbad.
  assert (Hrej : exists e, Py.int_of_bytes pep515 first5 = inr e).
  { destruct Hbad as [Hchar | Hrej]; [|assumption].
    destruct (Py.int_of_bytes pep515 first5) as [L|e] eqn:Hint; [|eauto].
    apply int_of_bytes_alphabet in Hint. congruence. }
  destruct Hrej as [e Hint]. split.
  - exact (@next_ValueError_prefix pep515 record Record_ _ _ _ _ H Hlen Hint).
  - destruct (byte_stream_read_inv _ _ H) as (s1 & Hs & ->).
    apply stream_read_inl in Hs as (-> & _ & _).
    simpl. now rewrite Hlen.
Qed.

(** C1 (amended).  When the prefix parses to [L] and fewer than [L - 5]
    bytes follow it, the step raises nothing, neither an error for the
    missing bytes nor [StopIteration]: it hands the prefix and the bytes
    that were there to the record builder (decoded when they decode, raw
    when they do not) and returns the builder's record, or [None] when
    the builder raises; the stream is left at its end. *)
Theorem C1_truncated_record_goes_to_builder st first5 tail L :
  let s := byte_stream (self st) in
  let mode := utf8_handling (self st) in
  let hide := hide_utf8_warnings (self st) in
  s_closed s = false ->
  remaining s = first5 ++ tail ->
  length first5 = 5 ->
  Py.int_of_bytes pep515 first5 = inl L ->
  (Z.of_nat (length tail) < L - 5)%Z ->
  let raw := first5 ++ tail in
  let built := Record_ (chunk_after_decode mode raw) hide mode in
  next st
  = (inl (returned built),
     mkState (with_stream (self st) (advance s (length raw)))
             (out st ++ decode_log mode raw ++ build_log built))
  /\ remaining (advance s (length raw)) = [].
Proof.
  intros s mode hide Hopen Hrem Hlen Hint Hshort raw built.
  pose proof (@next_on_content pep515 record Record_ st first5
                tail L Hopen Hrem Hlen Hint ltac:(lia)) as Hn.
  cbv zeta in Hn. rewrite firstn_all2 in Hn by lia.
  split; [exact Hn|].
  rewrite remaining_advance. fold s. rewrite Hrem. fold raw.
  now rewrite skipn_all.
Qed.

(** C2 (amended).  When a complete record is not valid UTF-8 and
    [utf8_handling] is [strict], the decoding error is not raised to the
    caller: the step logs it with [logging.error], hands the undecoded
    bytes to the record builder and returns the builder's record, or
    [None] when the builder raises.  The cursor has moved by exactly the
    [L] bytes of the record, so the next step starts at the next
    record. *)
Theorem C2_strict_decode_error_is_logged st first5 body tail L x :
  let s := byte_stream (self st) in
  let hide := hide_utf8_warnings (self st) in
  s_closed s = false ->
  utf8_handling (self st) = Py.strict ->
  remaining s = first5 ++ body ++ tail ->
  length first5 = 5 ->
  Py.int_of_bytes pep515 first5 = inl L ->
  (Z.of_nat (length body) = L - 5)%Z ->
  let raw := first5 ++ body in
  Py.decode_utf8 Py.strict raw = inr x ->
  let built := Record_ (PyBytes raw) hide Py.strict in
  next st
  = (inl (returned built),
     mkState (with_stream (self st) (advance s (length raw)))
             (out st
              ++ [LogError "Cannot iterate, error=<class 'UnicodeDecodeError'>"]
              ++ build_log built))
  /\ Z.of_nat (length raw) = L
  /\ remaining (advance s (length raw)) = tail.
Proof.
  intros s hide Hopen Hmode Hrem Hlen Hint Hbody raw Hdec built.
  destruct (@next_on_record st first5 body tail L Hopen Hrem Hlen Hint Hbody)
    as [Hn Htail].
  fold s raw in Hn, Htail. rewrite Hmode in Hn.
  unfold chunk_after_decode, decode_log in Hn. rewrite Hdec in Hn.
  destruct (decode_utf8_raises _ _ Hdec) as [[_ ->] | [? _]]; [|discriminate].
  split; [exact Hn|]. split; [|exact Htail].
  unfold raw. rewrite length_app. lia.
Qed.

End FramingErrors.

(** C1 as stated fails: a stream of 40 bytes whose prefix announces 50 is
    framed as a 40-byte record and, with a builder that takes what it is
    given, returned as a record; nothing is raised and nothing is logged.
    With a builder that refuses the buffer the step returns [None], and
    again raises nothing. *)
Lemma C1_truncated_buffer_returned_as_record :
  let data := bytes_of "00050" ++ repeat x41 35 in
  let result := MARCReader_next true accept_all (reader_over Py.strict data) in
  length data = 40
  /\ Py.int_of_bytes true (firstn 5 data) = inl 50%Z
  /\ fst result = inl (Some (PyStr (map Py.code data)))
  /\ out (snd result) = []
  /\ fst (MARCReader_next true reject_all (reader_over Py.strict data))
     = inl None.
Proof. vm_compute. repeat split. Qed.

Lemma C1_truncated_record_goes_to_builder_witness :
  let data := bytes_of "00050" ++ repeat x41 35 in
  fst (MARCReader_next true reject_all (reader_over Py.strict data)) = inl None
  /\ remaining (advance (byte_stream (self (reader_over Py.strict data))) 40) = [].
Proof.
  intros data.
  pose proof (@C1_truncated_record_goes_to_builder true pyval reject_all
                (reader_over Py.strict data) (bytes_of "00050")
                (repeat x41 35) 50%Z
                eq_refl eq_refl eq_refl eq_refl eq_refl) as [Hnext Hend].
  split; [exact (f_equal fst Hnext) | exact Hend].
Defined.

(** C2 as stated fails: under [strict] a record holding the byte FF makes
    the step return normally, here with the record the builder made of the
    raw bytes; the decoding error only reaches the log.  With a builder
    that refuses the bytes the step returns [None], and again raises
    nothing. *)
Lemma C2_decode_error_not_raised :
  let data := bytes_of "00006" ++ [xff] in
  let result := MARCReader_next true accept_all (reader_over Py.strict data) in
  Py.decode_utf8 Py.strict data = inr UnicodeDecodeError
  /\ fst result = inl (Some (PyBytes data))
  /\ out (snd result)
     = [LogError "Cannot iterate, error=<class 'UnicodeDecodeError'>"]
  /\ fst (MARCReader_next true reject_all (reader_over Py.strict data))
     = inl None.
Proof. vm_compute. repeat split. Qed.

Lemma C2_strict_decode_error_is_logged_witness :
  let data := bytes_of "00006" ++ [xff] ++ bytes_of "00005" in
  let st := reader_over Py.strict data in
  fst (MARCReader_next true reject_all st) = inl None
  /\ remaining (advance (byte_stream (self st)) 6) = bytes_of "00005".
Proof.
  intros data st.
  pose proof (@C2_strict_decode_error_is_logged true pyval reject_all
                st (bytes_of "00006") [xff] (bytes_of "00005") 6%Z
                UnicodeDecodeError
                eq_refl eq_refl eq_refl eq_refl eq_refl eq_refl eq_refl)
    as (Hnext & _ & Htail).
  split; [exact (f_equal fst Hnext) | exact Htail].
Defined.

(** C3 as stated fails twice over.  A prefix of letters makes the step
    raise [ValueError], which is not [RecordLengthInvalid]; and a prefix
    with a sign is not rejected at all: [+0007] is read as 7 and a record
    is returned. *)
Lemma C3_non_digit_prefix_not_RecordLengthInvalid :
  fst (MARCReader_next true accept_all
         (reader_over Py.strict (bytes_of "abcde12345")))
  = inr ValueError
  /\ ValueError <> RecordLengthInvalid
  /\ forallb (fun b => match Py.digit_val b with Some _ => true | None => false end)
             (bytes_of "+0007") = false
  /\ fst (MARCReader_next true accept_all
            (reader_over Py.strict (bytes_of "+0007ab")))
     = inl (Some (PyStr (map Py.code (bytes_of "+0007ab")))).
Proof. vm_compute. repeat split. discriminate. Qed.

Lemma C3_rejected_prefix_raises_ValueError_witness :
  let st := reader_over Py.strict (bytes_of "abcde12345") in
  fst (MARCReader_next false accept_all st) = inr ValueError.
Proof.
  intros st.
  exact (f_equal fst
           (proj1 (@C3_rejected_prefix_raises_ValueError false pyval accept_all
                     st (bytes_of "abcde") _ eq_refl eq_refl
                     (or_introl eq_refl)))).
Defined.

(** ** Decoding and construction failures *)

Section Failures.

Variable pep515 : bool.
Variable record : Type.
Variable Record_ : pyval -> bool -> Py.errors_mode -> record + exn.

Local Abbreviation next := (MARCReader_next pep515 Record_).

(** C9.  When decoding the chunk raises, whatever the exception and
    whatever the handling mode, [chunk] is still the [bytes] that were
    read, and it is this byte buffer that the record builder is called
    with: the step logs one error message and returns what the builder
    makes of the bytes ([None] when the builder raises in turn). *)
Theorem C9_undecodable_chunk_reaches_builder_as_bytes
        st first5 st1 L rest st2 x :
  byte_stream_read 5 st = (inl first5, st1) ->
  length first5 = 5 ->
  Py.int_of_bytes pep515 first5 = inl L ->
  byte_stream_read (L - 5) st1 = (inl rest, st2) ->
  let mode := utf8_handling (self st) in
  let hide := hide_utf8_warnings (self st) in
  let raw := first5 ++ rest in
  Py.decode_utf8 mode raw = inr x ->
  let built := Record_ (PyBytes raw) hide mode in
  chunk_after_decode mode raw = PyBytes raw
  /\ exists msg,
      next st
      = (inl (returned built),
         mkState (self st2) (out st ++ [LogError msg] ++ build_log built)).
Proof.
  intros H Hlen Hint Hr mode hide raw Hdec built.
  pose proof (@next_returns pep515 record Record_ _ _ _ _ _ _
                H Hlen Hint Hr) as Hn.
  cbv zeta in Hn. fold mode hide raw in Hn.
  unfold chunk_after_decode, decode_log in *. rewrite Hdec in *.
  split; [reflexivity|].
  destruct x; eexists; exact Hn.
Qed.

(** C10.  When the record builder raises, whatever the exception,
    [__next__] prints the traceback and returns [None]: the call itself
    raises nothing, and a loop over the reader receives [None] as the
    item of this step and goes on from the state the step left. *)
Theorem C10_builder_exception_yields_None st first5 st1 L rest st2 e :
  byte_stream_read 5 st = (inl first5, st1) ->
  length first5 = 5 ->
  Py.int_of_bytes pep515 first5 = inl L ->
  byte_stream_read (L - 5) st1 = (inl rest, st2) ->
  let mode := utf8_handling (self st) in
  let hide := hide_utf8_warnings (self st) in
  let raw := first5 ++ rest in
  Record_ (chunk_after_decode mode raw) hide mode = inr e ->
  let st' := mkState (self st2) (out st ++ decode_log mode raw ++ [PrintExc e]) in
  next st = (inl None, st')
  /\ forall steps,
      iterate pep515 Record_ (S steps) st
      = (let '(items, fin, st'') := iterate pep515 Record_ steps st' in
         (None :: items, fin, st'')).
Proof.
  intros H Hlen Hint Hr mode hide raw Hbuilt st'.
  pose proof (@next_returns pep515 record Record_ _ _ _ _ _ _
                H Hlen Hint Hr) as Hn.
  cbv zeta in Hn. fold mode hide raw in Hn. rewrite Hbuilt in Hn.
  simpl in Hn. fold st' in Hn.
  split; [exact Hn|].
  intros steps. simpl. now rewrite Hn.
Qed.

(** C7 (amended).  When the record builder raises on a complete record,
    the step prints the exception's traceback to stderr (the reader adds
    nothing about the buffer or its length), returns [None] instead of
    raising, and leaves the cursor exactly behind the record: the next
    prefix read returns the first bytes of what follows. *)
Theorem C7_builder_failure_keeps_framing st first5 body tail L e :
  let s := byte_stream (self st) in
  let mode := utf8_handling (self st) in
  let hide := hide_utf8_warnings (self st) in
  s_closed s = false ->
  remaining s = first5 ++ body ++ tail ->
  length first5 = 5 ->
  Py.int_of_bytes pep515 first5 = inl L ->
  (Z.of_nat (length body) = L - 5)%Z ->
  let raw := first5 ++ body in
  Record_ (chunk_after_decode mode raw) hide mode = inr e ->
  let st' := mkState (with_stream (self st) (advance s (length raw)))
                     (out st ++ decode_log mode raw ++ [PrintExc e]) in
  next st = (inl None, st')
  /\ Z.of_nat (length raw) = L
  /\ remaining (byte_stream (self st')) = tail
  /\ fst (byte_stream_read 5 st') = inl (firstn 5 tail).
Proof.
  intros s mode hide Hopen Hrem Hlen Hint Hbody raw Hbuilt st'.
  destruct (@next_on_record pep515 record Record_ st first5 body tail L
              Hopen Hrem Hlen Hint Hbody) as [Hn Htail].
  fold s mode hide raw in Hn, Htail. rewrite Hbuilt in Hn. simpl in Hn.
  split; [exact Hn|]. split; [unfold raw; rewrite length_app; lia|].
  split; [exact Htail|].
  unfold byte_stream_read, st'. cbn [self with_stream byte_stream].
  change 5%Z with (Z.of_nat 5).
  rewrite stream_read_open by exact Hopen.
  now rewrite Htail.
Qed.

End Failures.

Lemma C9_undecodable_chunk_reaches_builder_as_bytes_witness :
  let data := bytes_of "00006" ++ [xff] in
  fst (MARCReader_next true accept_all (reader_over Py.xmlcharrefreplace data))
  = inl (Some (PyBytes data)).
Proof.
  intros data.
  destruct (@C9_undecodable_chunk_reaches_builder_as_bytes true pyval accept_all
              (reader_over Py.xmlcharrefreplace data) (bytes_of "00006")
              _ 6%Z [xff] _ TypeError eq_refl eq_refl eq_refl eq_refl eq_refl)
    as [_ [msg Hnext]].
  exact (f_equal fst Hnext).
Defined.

Lemma C10_builder_exception_yields_None_witness :
  let data := bytes_of "00006A00006B" in
  iterate true reject_all 3 (reader_over Py.strict data)
  = ([None; None], Exhausted,
     mkState (mkReader Py.strict false (mkStream BytesIO 0 false data 12))
             [PrintExc (OtherError "RecordLeaderInvalid");
              PrintExc (OtherError "RecordLeaderInvalid")]).
Proof.
  intros data.
  destruct (@C10_builder_exception_yields_None true pyval reject_all
              (reader_over Py.strict data) (bytes_of "00006")
              _ 6%Z (bytes_of "A") _ (OtherError "RecordLeaderInvalid")
              eq_refl eq_refl eq_refl eq_refl eq_refl)
    as [_ Hloop].
  rewrite Hloop. reflexivity.
Defined.

(** C7 as stated fails in its first part: what the step writes when the
    builder fails does not tell a 6-byte buffer from a 7-byte one. *)
Lemma C7_diagnostic_without_buffer_length :
  let run data := MARCReader_next true reject_all (reader_over Py.strict data) in
  length (bytes_of "00006A") <> length (bytes_of "00007AB")
  /\ fst (run (bytes_of "00006A")) = inl None
  /\ fst (run (bytes_of "00007AB")) = inl None
  /\ out (snd (run (bytes_of "00006A"))) = out (snd (run (bytes_of "00007AB")))
  /\ out (snd (run (bytes_of "00006A")))
     = [PrintExc (OtherError "RecordLeaderInvalid")].
Proof. vm_compute. repeat split. discriminate. Qed.

Lemma C7_builder_failure_keeps_framing_witness :
  let data := bytes_of "00006A00006B" in
  let st := reader_over Py.strict data in
  fst (MARCReader_next true reject_all st) = inl None
  /\ fst (byte_stream_read 5
            (mkState (with_stream (self st) (advance (byte_stream (self st)) 6))
                     [PrintExc (OtherError "RecordLeaderInvalid")]))
     = inl (bytes_of "00006").
Proof.
  intros data st.
  destruct (@C7_builder_failure_keeps_framing true pyval reject_all
              st (bytes_of "00006") (bytes_of "A") (bytes_of "00006B") 6%Z
              (OtherError "RecordLeaderInvalid")
              eq_refl eq_refl eq_refl eq_refl eq_refl eq_refl)
    as (Hnext & _ & _ & Hread).
  split; [exact (f_equal fst Hnext) | exact Hread].
Defined.

(** ** Lossless framing *)

Lemma well_formed_split r :
  well_formed r ->
  exists first5 body,
    r = first5 ++ body /\ length first5 = 5
    /\ (forall p, Py.int_of_bytes p first5 = inl (Z.of_nat (length r)))
    /\ (Z.of_nat (length body) = Z.of_nat (length r) - 5)%Z.
Proof.
  intros [Hlt Hprefix].
  assert (Hlen5 : length (firstn 5 r) = 5) by now rewrite Hprefix.
  exists (firstn 5 r), (skipn 5 r).
  split; [now rewrite firstn_skipn|]. split; [assumption|]. split.
  - intros p. rewrite Hprefix. apply int_of_ascii_decimal5. lia.
  - rewrite length_firstn in Hlen5. rewrite length_skipn. lia.
Qed.

Section Lossless.

Variable pep515 : bool.
Variable record : Type.
Variable Record_ : pyval -> bool -> Py.errors_mode -> record + exn.

Local Abbreviation next := (MARCReader_next pep515 Record_).

Lemma spans_of_records rs : forall st,
  s_closed (byte_stream (self st)) = false ->
  remaining (byte_stream (self st)) = concat rs ->
  Forall well_formed rs ->
  spans pep515 Record_ (length rs) st = rs
  /\ exists items st',
      iterate pep515 Record_ (S (length rs)) st = (items, Exhausted, st')
      /\ length items = length rs.
Proof.
  induction rs as [|r rs IH]; intros st Hopen Hrem Hwf.
  - split; [reflexivity|]. exists [], st. split; [|reflexivity].
    assert (H : byte_stream_read 5 st = (inl [], st)).
    { unfold byte_stream_read. rewrite stream_read_eof by assumption.
      destruct st as [[mode hide s] log]. reflexivity. }
    simpl. now rewrite (@next_StopIteration pep515 record Record_ _ _ H).
  - inversion Hwf as [|r' rs' Hr Hrs]; subst r' rs'.
    destruct (well_formed_split Hr) as (first5 & body & Hsplit & Hlen & Hint & Hbody).
    simpl in Hrem. rewrite Hsplit, <- app_assoc in Hrem.
    destruct (@next_on_record pep515 record Record_ st first5 body (concat rs)
                (Z.of_nat (length r)) Hopen Hrem Hlen (Hint pep515) Hbody)
      as [Hn Htail].
    rewrite <- Hsplit in Hn, Htail.
    match type of Hn with _ = (_, ?st1) => set (st' := st1) in * end.
    destruct (IH st') as (Hspans & items & st'' & Hiter & Hitems);
      [exact Hopen | exact Htail | exact Hrs |].
    split.
    + change (length (r :: rs)) with (S (length rs)).
      cbn [spans]. rewrite Hn. fold st'. rewrite Hspans. f_equal.
      unfold st'. cbn [self with_stream byte_stream advance s_pos].
      replace (_ + length r - _) with (length r) by lia.
      fold (remaining (byte_stream (self st))).
      rewrite Hrem, app_assoc, <- Hsplit.
      now rewrite firstn_app, Nat.sub_diag, firstn_all, app_nil_r.
    + change (length (r :: rs)) with (S (length rs)).
      remember (S (length rs)) as n eqn:Hn'.
      cbn [iterate]. rewrite Hn. fold st'. rewrite Hiter.
      eexists _, st''. split; [reflexivity|]. simpl. now rewrite Hitems.
Qed.

(** C5.  On a stream that is a concatenation of well-formed records, the
    successive steps take exactly the successive records from it: the
    span of each step is the record at the cursor, as long as its prefix
    says; the spans put together are the input; and the call after the
    last record ends the iteration. *)
Theorem C5_framing_is_lossless st rs :
  let s := byte_stream (self st) in
  s_closed s = false ->
  s_pos s = 0 ->
  s_data s = concat rs ->
  Forall well_formed rs ->
  let taken := spans pep515 Record_ (length rs) st in
  taken = rs
  /\ Forall (fun span =>
               Py.int_of_bytes pep515 (firstn 5 span)
               = inl (Z.of_nat (length span))) taken
  /\ concat taken = s_data s
  /\ exists items st',
      iterate pep515 Record_ (S (length rs)) st = (items, Exhausted, st')
      /\ length items = length rs.
Proof.
  intros s Hopen Hpos Hdata Hwf taken.
  assert (Hrem : remaining s = concat rs).
  { unfold remaining. now rewrite Hpos, Hdata. }
  destruct (spans_of_records st Hopen Hrem Hwf) as [Hspans Hiter].
  fold taken in Hspans.
  split; [exact Hspans|]. split; [|split; [congruence | exact Hiter]].
  rewrite Hspans. apply Forall_forall. intros r Hin.
  rewrite Forall_forall in Hwf. destruct (Hwf r Hin) as [Hlt Hprefix].
  rewrite Hprefix. apply int_of_ascii_decimal5. lia.
Qed.

End Lossless.

Lemma C5_framing_is_lossless_witness :
  let rs := [bytes_of "00006A"; bytes_of "00007BC"; bytes_of "00005"] in
  spans true accept_all 3 (reader_over Py.strict (concat rs)) = rs.
Proof.
  intros rs.
  refine (proj1 (@C5_framing_is_lossless true pyval accept_all
                   (reader_over Py.strict (concat rs)) rs
                   eq_refl eq_refl eq_refl _)).
  repeat constructor.
Defined.

(** ** Input normalisation *)

Section NormalizerFacts.

Variable collections_Callable : bool.
Variable BufferedReader_ : marc_target -> stream + exn.

Local Abbreviation init := (MARCReader_init collections_Callable BufferedReader_).

(** The constructor, branch by branch. *)
Lemma init_by_branches t kw w :
  let mode := configured_mode kw in
  let hide := configured_hide kw in
  init t kw w
  = match has_callable_read collections_Callable t with
    | inr e => (inr e, w)
    | inl true =>
      match as_BufferedReader t with
      | Some s => (inl (mkReader mode hide s), w)
      | None =>
        match attr_name t with
        | inr e => (inr e, w)
        | inl name =>
          match target_id t with
          | None => (inr AttributeError, w)
          | Some id =>
            let closed :=
              mkWorld (fs w) (remove Nat.eq_dec id (open_handles w))
                      (next_id w) (trace w ++ [Closed id]) in
            match fs w name with
            | inr e => (inr e, closed)
            | inl data =>
              (inl (mkReader mode hide
                             (mkStream BufferedReader (next_id w) false data 0)),
               mkWorld (fs w)
                       (next_id w :: remove Nat.eq_dec id (open_handles w))
                       (S (next_id w))
                       (trace w ++ [Closed id; Opened name (next_id w)]))
            end
          end
        end
      end
    | inl false =>
      if hasattr_buffer t then
        match BufferedReader_ t with
        | inl s => (inl (mkReader mode hide s), w)
        | inr e => (inr e, w)
        end
      else
        match encode t mode with
        | inl raw =>
          (inl (mkReader mode hide (mkStream BytesIO (next_id w) false raw 0)),
           mkWorld (fs w) (open_handles w) (S (next_id w)) (trace w))
        | inr e => (inr e, w)
        end
    end.
Proof.
  intros mode hide.
  unfold MARCReader_init, bind, lift, ret, close, open_rb, BytesIO_new.
  fold (configured_mode kw) (configured_hide kw). fold mode hide.
  destruct (has_callable_read collections_Callable t) as [[|]|e];
    [| |reflexivity].
  - destruct (as_BufferedReader t) as [s|]; [reflexivity|].
    destruct (attr_name t) as [name|e]; [|reflexivity].
    destruct (target_id t) as [id|]; [|reflexivity].
    cbn [fs next_id trace open_handles].
    destruct (fs w name) as [data|e]; [|reflexivity].
    now rewrite <- app_assoc.
  - destruct (hasattr_buffer t).
    + now destruct (BufferedReader_ t).
    + now destruct (encode t mode).
Qed.

(** A readable target that is not a [BufferedReader] and whose name
    [open] accepts is closed, then reopened in binary mode. *)
Lemma init_reopens t kw w name id data :
  collections_Callable = true ->
  hasattr_read t = true ->
  as_BufferedReader t = None ->
  attr_name t = inl name ->
  target_id t = Some id ->
  fs w name = inl data ->
  init t kw w
  = (inl (mkReader (configured_mode kw) (configured_hide kw)
                   (mkStream BufferedReader (next_id w) false data 0)),
     mkWorld (fs w)
             (next_id w :: remove Nat.eq_dec id (open_handles w))
             (S (next_id w))
             (trace w ++ [Closed id; Opened name (next_id w)])).
Proof.
  intros Hcc Hread Htype Hname Hid Hfile.
  rewrite init_by_branches. unfold has_callable_read.
  now rewrite Hread, Hcc, Htype, Hname, Hid, Hfile.
Qed.

Lemma init_passes_through t kw w s :
  collections_Callable = true ->
  as_BufferedReader t = Some s ->
  init t kw w
  = (inl (mkReader (configured_mode kw) (configured_hide kw) s), w).
Proof.
  intros Hcc Htype.
  assert (Hread : hasattr_read t = true)
    by (destruct t; simpl in *; congruence).
  rewrite init_by_branches. unfold has_callable_read.
  now rewrite Hread, Hcc, Htype.
Qed.

Lemma init_encodes text kw w raw :
  Py.encode_ascii (configured_mode kw) text = inl raw ->
  init (TextPayload text) kw w
  = (inl (mkReader (configured_mode kw) (configured_hide kw)
                   (mkStream BytesIO (next_id w) false raw 0)),
     mkWorld (fs w) (open_handles w) (S (next_id w)) (trace w)).
Proof.
  intros Henc. rewrite init_by_branches.
  cbn [has_callable_read hasattr_read hasattr_buffer encode].
  now rewrite Henc.
Qed.

(** Without [collections.Callable] the test of line 37 raises for every
    target that has [read]. *)
Lemma init_without_Callable t kw w :
  collections_Callable = false ->
  hasattr_read t = true ->
  init t kw w = (inr AttributeError, w).
Proof.
  intros Hcc Hread. rewrite init_by_branches. unfold has_callable_read.
  now rewrite Hread, Hcc.
Qed.

(** C8.  Whenever the constructor yields a reader, on any interpreter:
    - from a readable object that is not a [BufferedReader], it has
      taken the object's name, closed the object and then opened that
      name for binary reading, in this order, and reads from the new
      handle at its start;
    - from a [BufferedReader], it reads from that very stream and has
      touched nothing;
    - from a [str], it reads from a fresh [BytesIO] over the text's ASCII
      encoding under the configured [utf8_handling], with no handle
      closed or opened.
    And the reader is yielded: on an interpreter that has
    [collections.Callable], for a text-mode handle and for a named binary
    stream other than a [BufferedReader] whenever [open] accepts the name,
    and for every [BufferedReader]; on any interpreter, for a [str]
    whenever the text encodes.  On an interpreter without
    [collections.Callable] every target that has [read] makes the
    constructor raise [AttributeError] before it touches anything. *)
Theorem C8_normalizer_by_input_shape t kw w :
  (forall r w',
      init t kw w = (inl r, w') ->
      utf8_handling r = configured_mode kw
      /\ (hasattr_read t = true -> as_BufferedReader t = None ->
          exists name id data,
            attr_name t = inl name /\ target_id t = Some id
            /\ fs w name = inl data
            /\ trace w' = trace w ++ [Closed id; Opened name (next_id w)]
            /\ open_handles w'
               = next_id w :: remove Nat.eq_dec id (open_handles w)
            /\ byte_stream r = mkStream BufferedReader (next_id w) false data 0)
      /\ (forall s, as_BufferedReader t = Some s ->
               byte_stream r = s /\ w' = w)
      /\ (forall text, t = TextPayload text ->
                  exists raw,
                    Py.encode_ascii (configured_mode kw) text = inl raw
                    /\ byte_stream r = mkStream BytesIO (next_id w) false raw 0
                    /\ trace w' = trace w
                    /\ open_handles w' = open_handles w))
  /\ (collections_Callable = true ->
      (forall h name data,
          t = TextHandle h -> t_name h = Some name -> fs w name = inl data ->
          init t kw w
          = (inl (mkReader (configured_mode kw) (configured_hide kw)
                           (mkStream BufferedReader (next_id w) false data 0)),
             mkWorld (fs w)
                     (next_id w :: remove Nat.eq_dec (t_id h) (open_handles w))
                     (S (next_id w))
                     (trace w ++ [Closed (t_id h); Opened name (next_id w)])))
      /\ (forall s name data,
             t = BinaryHandle (Some name) s -> s_type s = BytesIO ->
             fs w name = inl data ->
             init t kw w
             = (inl (mkReader (configured_mode kw) (configured_hide kw)
                              (mkStream BufferedReader (next_id w) false data 0)),
                mkWorld (fs w)
                        (next_id w :: remove Nat.eq_dec (s_id s) (open_handles w))
                        (S (next_id w))
                        (trace w ++ [Closed (s_id s); Opened name (next_id w)])))
      /\ (forall name s,
             t = BinaryHandle name s -> s_type s = BufferedReader ->
             init t kw w
             = (inl (mkReader (configured_mode kw) (configured_hide kw) s), w)))
  /\ (forall text raw,
         t = TextPayload text ->
         Py.encode_ascii (configured_mode kw) text = inl raw ->
         init t kw w
         = (inl (mkReader (configured_mode kw) (configured_hide kw)
                          (mkStream BytesIO (next_id w) false raw 0)),
            mkWorld (fs w) (open_handles w) (S (next_id w)) (trace w)))
  /\ (collections_Callable = false -> hasattr_read t = true ->
      init t kw w = (inr AttributeError, w)).
Proof.
  split; [|split; [|split]].
  - intros r w' Hinit. rewrite init_by_branches in Hinit.
    unfold has_callable_read in Hinit.
    destruct (hasattr_read t) eqn:Hread.
    + destruct collections_Callable; [|discriminate].
      destruct (as_BufferedReader t) as [s|] eqn:Htype.
      * injection Hinit as <- <-.
        split; [reflexivity|]. split; [discriminate|].
        split; [now intros s0 [= <-]|].
        intros text ->. discriminate.
      * destruct (attr_name t) as [name|e] eqn:Hname; [|discriminate].
        destruct (target_id t) as [id|] eqn:Hid; [|discriminate].
        cbv zeta in Hinit.
        destruct (fs w name) as [data|e] eqn:Hfile; [|discriminate].
        injection Hinit as <- <-.
        split; [reflexivity|].
        split; [intros _ _; exists name, id, data; repeat split; assumption|].
        split; [discriminate|].
        intros text ->. discriminate.
    + destruct (hasattr_buffer t) eqn:Hbuf.
      * destruct (BufferedReader_ t) as [s|e]; [|discriminate].
        injection Hinit as <- <-.
        split; [reflexivity|]. split; [discriminate|].
        split; [intros s0 Hs0; destruct t; simpl in *; discriminate|].
        intros text ->. discriminate.
      * destruct (encode t (configured_mode kw)) as [raw|e] eqn:Henc;
          [|discriminate].
        injection Hinit as <- <-.
        split; [reflexivity|]. split; [discriminate|].
        split; [intros s0 Hs0; destruct t; simpl in *; discriminate|].
        intros text ->. exists raw. repeat split. exact Henc.
  - intros Hcc. split; [|split].
    + intros h name data -> Hname Hfile.
      apply init_reopens; try assumption; try reflexivity.
      simpl. now rewrite Hname.
    + intros s name data -> Htype Hfile.
      apply init_reopens; try assumption; try reflexivity.
      simpl. now rewrite Htype.
    + intros name s -> Htype.
      apply init_passes_through; [assumption|]. simpl. now rewrite Htype.
  - intros text raw -> Henc. now apply init_encodes.
  - apply init_without_Callable.
Qed.

End NormalizerFacts.

Lemma C8_normalizer_by_input_shape_witness :
  let kw := mkKwargs None None in
  let stream_of_binary_file :=
    mkStream BufferedReader 5 false (bytes_of "00006A00007BC") 0 in
  MARCReader_init true no_wrapping text_file kw sample_world
  = (inl (mkReader Py.strict false
                   (mkStream BufferedReader 4 false (bytes_of "00006A") 0)),
     mkWorld (fs sample_world) [4] 5 [Closed 3; Opened (Path "marc.dat") 4])
  /\ MARCReader_init true no_wrapping binary_file kw sample_world
     = (inl (mkReader Py.strict false stream_of_binary_file), sample_world)
  /\ MARCReader_init true no_wrapping (TextPayload [48%N; 233%N])
                     (mkKwargs (Some Py.replace) None) sample_world
     = (inl (mkReader Py.replace false
                      (mkStream BytesIO 4 false (bytes_of "0?") 0)),
        mkWorld (fs sample_world) [3] 5 [])
  /\ MARCReader_init false no_wrapping binary_file kw sample_world
     = (inr AttributeError, sample_world)
  /\ byte_stream
       (mkReader Py.strict false stream_of_binary_file)
     = stream_of_binary_file.
Proof.
  intros kw stream_of_binary_file.
  split; [|split; [|split; [|split]]].
  - exact (proj1 (proj1 (proj2 (@C8_normalizer_by_input_shape
                                  true no_wrapping text_file kw sample_world))
                        eq_refl)
                 (mkText 3 (Some (Path "marc.dat")) true) (Path "marc.dat")
                 (bytes_of "00006A") eq_refl eq_refl eq_refl).
  - exact (proj2 (proj2 (proj1 (proj2 (@C8_normalizer_by_input_shape
                                         true no_wrapping binary_file kw
                                         sample_world))
                               eq_refl))
                 (Some (Path "marc.dat")) stream_of_binary_file
                 eq_refl eq_refl).
  - exact (proj1 (proj2 (proj2 (@C8_normalizer_by_input_shape
                                  true no_wrapping (TextPayload [48%N; 233%N])
                                  (mkKwargs (Some Py.replace) None)
                                  sample_world)))
                 [48%N; 233%N] (bytes_of "0?") eq_refl eq_refl).
  - exact (proj2 (proj2 (proj2 (@C8_normalizer_by_input_shape
                                  false no_wrapping binary_file kw
                                  sample_world)))
                 eq_refl eq_refl).
  - destruct (proj1 (@C8_normalizer_by_input_shape
                       true no_wrapping binary_file kw sample_world)
                    (mkReader Py.strict false stream_of_binary_file)
                    sample_world eq_refl) as (_ & _ & Hsame & _).
    exact (proj1 (Hsame stream_of_binary_file eq_refl)).
Defined.

(** * Further properties of the module *)

(** ** Every step, by what is in front of the cursor *)

Lemma at_offset_0 st : at_offset st 0 = st.
Proof.
  unfold at_offset. rewrite advance_0.
  destruct st as [[mode hide s] log]. reflexivity.
Qed.

Lemma stream_read_closed s size :
  s_closed s = true -> stream_read s size = (inr ValueError, s).
Proof. intros H. unfold stream_read. now rewrite H. Qed.

Lemma stream_read_below_minus_one s size :
  s_closed s = false -> s_type s = BufferedReader -> (size < -1)%Z ->
  stream_read s size = (inr ValueError, s).
Proof.
  intros Hc Ht Hs. unfold stream_read. rewrite Hc, Ht.
  now rewrite (proj2 (Z.ltb_lt _ _) Hs).
Qed.

Lemma stream_read_to_end s size :
  s_closed s = false -> (size < 0)%Z ->
  s_type s = BytesIO \/ size = (-1)%Z ->
  stream_read s size = (inl (remaining s), advance s (length (remaining s))).
Proof.
  intros Hc Hneg Hok. unfold stream_read. rewrite Hc.
  rewrite (proj2 (Z.ltb_lt _ _) Hneg).
  destruct (s_type s); [|reflexivity].
  destruct Hok as [Hb | ->]; [discriminate|reflexivity].
Qed.

Section StepByContent.

Variable pep515 : bool.
Variable record : Type.
Variable Record_ : pyval -> bool -> Py.errors_mode -> record + exn.

Local Abbreviation next := (MARCReader_next pep515 Record_).

Lemma byte_stream_read_open st n :
  s_closed (byte_stream (self st)) = false ->
  byte_stream_read (Z.of_nat n) st
  = (inl (firstn n (remaining (byte_stream (self st)))),
     at_offset st (length (firstn n (remaining (byte_stream (self st)))))).
Proof.
  intros Hopen. unfold byte_stream_read.
  now rewrite stream_read_open by assumption.
Qed.

Lemma remainder_read st L :
  let s := byte_stream (self st) in
  s_closed s = false ->
  s_type s = BytesIO \/ (4 <= L)%Z ->
  byte_stream_read (L - 5) (at_offset st 5)
  = (inl (remainder_for L (skipn 5 (remaining s))),
     at_offset st (5 + length (remainder_for L (skipn 5 (remaining s))))).
Proof.
  intros s Hopen Hok. unfold byte_stream_read, at_offset.
  cbn [self out with_stream byte_stream]. fold s.
  assert (Hrem : remaining (advance s 5) = skipn 5 (remaining s))
    by apply remaining_advance.
  unfold remainder_for. destruct (L - 5 <? 0)%Z eqn:Hneg.
  - apply Z.ltb_lt in Hneg.
    rewrite stream_read_to_end; try assumption.
    + rewrite Hrem, advance_advance. reflexivity.
    + destruct Hok as [Hb | HL]; [now left | right; lia].
  - apply Z.ltb_ge in Hneg.
    rewrite <- (Z2Nat.id (L - 5)) at 1 by assumption.
    rewrite stream_read_open by assumption.
    rewrite Hrem, advance_advance. reflexivity.
Qed.

(** Every call of [__next__] is one of the six cases. *)
Lemma next_step_case st : step_case pep515 Record_ st.
Proof.
  set (s := byte_stream (self st)).
  destruct (s_closed s) eqn:Hclosed.
  - apply case_closed; [assumption|].
    apply (@next_read_raises pep515 record Record_).
    unfold byte_stream_read. fold s. rewrite stream_read_closed by assumption.
    destruct st as [[mode hide s0] log]. reflexivity.
  - pose proof (@byte_stream_read_open st 5 Hclosed) as H5. fold s in H5.
    change (Z.of_nat 5) with 5%Z in H5.
    destruct (Nat.lt_ge_cases (length (remaining s)) 5) as [Hlt | Hge].
    + rewrite firstn_all2 in H5 by lia.
      destruct (remaining s) as [|b r] eqn:Hrem.
      * apply case_end; [assumption | assumption |].
        simpl in H5. rewrite at_offset_0 in H5.
        exact (@next_StopIteration pep515 record Record_ _ _ H5).
      * apply case_short; [assumption | fold s; rewrite Hrem; simpl in *; lia |].
        fold s. rewrite Hrem.
        apply (@next_RecordLengthInvalid pep515 record Record_ _ _ _ H5).
        simpl in *. lia.
    + assert (Hlen : length (firstn 5 (remaining s)) = 5)
        by (rewrite length_firstn; lia).
      rewrite Hlen in H5.
      destruct (Py.int_of_bytes pep515 (firstn 5 (remaining s))) as [L|e] eqn:Hint.
      * destruct (s_type s) eqn:Htype; [destruct (Z.lt_ge_cases L 4) as [HL | HL]|].
        -- apply case_bad_size with (L := L); try assumption.
           apply (@next_remainder_raises pep515 record Record_ _ _ _ _ _ _
                    H5 Hlen Hint).
           unfold byte_stream_read, at_offset.
           cbn [self out with_stream byte_stream]. fold s.
           rewrite stream_read_below_minus_one; [reflexivity | | | lia];
             assumption.
        -- apply case_returns with (L := L); try assumption; [now right|].
           pose proof (@remainder_read st L Hclosed (or_intror HL)) as Hr.
           fold s in Hr.
           pose proof (@next_returns pep515 record Record_ _ _ _ _ _ _
                         H5 Hlen Hint Hr) as Hn.
           cbv zeta in *. fold s. rewrite Hn.
           now rewrite length_app, Hlen.
        -- apply case_returns with (L := L); try assumption; [now left|].
           pose proof (@remainder_read st L Hclosed (or_introl Htype)) as Hr.
           fold s in Hr.
           pose proof (@next_returns pep515 record Record_ _ _ _ _ _ _
                         H5 Hlen Hint Hr) as Hn.
           cbv zeta in *. fold s. rewrite Hn.
           now rewrite length_app, Hlen.
      * apply case_not_a_number with (e := e); try assumption.
        exact (@next_ValueError_prefix pep515 record Record_ _ _ _ _
                 H5 Hlen Hint).
Qed.

End StepByContent.

(** ** What a step keeps and what it takes *)


Lemma firstn_then_firstn {A} (a b : nat) (l : list A) :
  firstn a l ++ firstn b (skipn a l) = firstn (a + b) l.
Proof.
  revert l. induction a as [|a IH]; intros l; [reflexivity|].
  destruct l as [|x l]; simpl; [now rewrite firstn_nil|].
  now rewrite IH.
Qed.

(** Prefix and remainder of a step are together a prefix of what was in
    front of the cursor. *)
Lemma raw_is_prefix (L : Z) (rem : list byte) :
  let raw := firstn 5 rem ++ remainder_for L (skipn 5 rem) in
  5 <= length rem ->
  raw = firstn (length raw) rem /\ 5 <= length raw <= length rem.
Proof.
  intros raw Hge. unfold raw, remainder_for.
  destruct (L - 5 <? 0)%Z.
  - rewrite firstn_skipn. rewrite firstn_all. split; [reflexivity | lia].
  - rewrite firstn_then_firstn.
    rewrite length_firstn.
    destruct (Nat.le_ge_cases (5 + Z.to_nat (L - 5)) (length rem)).
    + rewrite Nat.min_l by assumption. split; [reflexivity | lia].
    + rewrite Nat.min_r by assumption.
      rewrite firstn_all, firstn_all2 by assumption. split; [reflexivity | lia].
Qed.

Section StepInvariants.

Variable pep515 : bool.
Variable record : Type.
Variable Record_ : pyval -> bool -> Py.errors_mode -> record + exn.

Local Abbreviation next := (MARCReader_next pep515 Record_).

(** X1.  No call of [__next__] changes the decoding policy of the reader
    or the stream it reads from, apart from the cursor, which only moves
    forward and never past the end of the data; and the call only adds to
    what has been logged, at most two entries. *)
Theorem next_keeps_policy_and_source st :
  let st' := snd (next st) in
  let s := byte_stream (self st) in
  let s' := byte_stream (self st') in
  utf8_handling (self st') = utf8_handling (self st)
  /\ hide_utf8_warnings (self st') = hide_utf8_warnings (self st)
  /\ same_source s s'
  /\ s_pos s <= s_pos s' <= Nat.max (s_pos s) (length (s_data s))
  /\ exists more, out st' = out st ++ more /\ length more <= 2.
Proof.
  intros st' s s'. subst st' s'.
  assert (Hrem : length (remaining s) = length (s_data s) - s_pos s)
    by apply length_skipn.
  assert (Hoff : forall n log,
             n <= length (remaining s) ->
             let st1 := mkState (self (at_offset st n)) (out st ++ log) in
             length log <= 2 ->
             utf8_handling (self st1) = utf8_handling (self st)
             /\ hide_utf8_warnings (self st1) = hide_utf8_warnings (self st)
             /\ same_source s (byte_stream (self st1))
             /\ s_pos s <= s_pos (byte_stream (self st1))
                <= Nat.max (s_pos s) (length (s_data s))
             /\ exists more, out st1 = out st ++ more /\ length more <= 2).
  { intros n log Hn st1 Hlog. unfold st1, at_offset, same_source.
    cbn [self out with_stream byte_stream advance utf8_handling
         hide_utf8_warnings s_type s_id s_closed s_data s_pos].
    fold s.
    split; [reflexivity|]. split; [reflexivity|]. split; [auto|].
    split; [lia|]. eauto. }
  assert (Hsame : forall n,
             n <= length (remaining s) ->
             at_offset st n = mkState (self (at_offset st n)) (out st ++ [])).
  { intros n _. unfold at_offset. simpl. now rewrite app_nil_r. }
  destruct (next_step_case pep515 Record_ st)
    as [Hc Hn | Hc Hr Hn | Hc Hr Hn | e Hc Hr Hi Hn | L Hc Hr Hi Ht HL Hn
        | L Hc Hr Hi Ht Hn]; fold_everywhere s.
  - rewrite Hn. cbn [snd]. fold s.
    split; [reflexivity|]. split; [reflexivity|].
    split; [unfold same_source; auto|]. split; [lia|].
    exists []. rewrite app_nil_r. simpl. split; [reflexivity | lia].
  - rewrite Hn. cbn [snd]. fold s.
    split; [reflexivity|]. split; [reflexivity|].
    split; [unfold same_source; auto|]. split; [lia|].
    exists []. rewrite app_nil_r. simpl. split; [reflexivity | lia].
  - rewrite Hn. cbn [snd]. rewrite Hsame by lia. apply Hoff; simpl; lia.
  - rewrite Hn. cbn [snd]. rewrite Hsame by lia. apply Hoff; simpl; lia.
  - rewrite Hn. cbn [snd]. rewrite Hsame by lia. apply Hoff; simpl; lia.
  - cbv zeta in Hn. rewrite Hn. cbn [snd].
    destruct (raw_is_prefix L (remaining s) Hr) as [_ Hlen].
    apply Hoff; [lia|]. rewrite length_app.
    unfold decode_log, build_log.
    destruct (Py.decode_utf8 _ _) as [text|[]];
      destruct (Record_ _ _ _); simpl; lia.
Qed.

(** A returning call, read backwards from its result. *)
Lemma next_returned_inv st item st' :
  next st = (inl item, st') ->
  let s := byte_stream (self st) in
  let mode := utf8_handling (self st) in
  let hide := hide_utf8_warnings (self st) in
  let span := firstn (s_pos (byte_stream (self st')) - s_pos s) (remaining s) in
  let built := Record_ (chunk_after_decode mode span) hide mode in
  5 <= length span
  /\ s_pos (byte_stream (self st')) = s_pos s + length span
  /\ item = returned built
  /\ out st' = out st ++ decode_log mode span ++ build_log built.
Proof.
  intros Hnext s mode hide.
  destruct (next_step_case pep515 Record_ st)
    as [Hc Hn | Hc Hr Hn | Hc Hr Hn | e Hc Hr Hi Hn | L Hc Hr Hi Ht HL Hn
        | L Hc Hr Hi Ht Hn]; fold_everywhere s;
    try (rewrite Hn in Hnext; discriminate).
  cbv zeta in Hn. rewrite Hn in Hnext.
  destruct (raw_is_prefix L (remaining s) Hr) as [Hraw Hlen].
  set (raw := firstn 5 (remaining s) ++ remainder_for L (skipn 5 (remaining s)))
    in *.
  injection Hnext as <- <-.
  unfold at_offset.
  cbn [self out with_stream byte_stream advance s_pos]. fold s.
  replace (s_pos s + length raw - s_pos s) with (length raw) by lia.
  rewrite <- Hraw. fold mode hide.
  repeat split; lia.
Qed.

(** X2.  Whatever a call returns is what the builder made of exactly the
    bytes the call took from the stream: at least the five of the prefix,
    decoded when they decode and raw when they do not; the call returns
    the builder's record, or [None] when the builder raised. *)
Theorem next_returns_what_it_consumed st item st' :
  next st = (inl item, st') ->
  let s := byte_stream (self st) in
  let mode := utf8_handling (self st) in
  let hide := hide_utf8_warnings (self st) in
  let span := firstn (s_pos (byte_stream (self st')) - s_pos s) (remaining s) in
  let built := Record_ (chunk_after_decode mode span) hide mode in
  5 <= length span
  /\ s_pos (byte_stream (self st')) = s_pos s + length span
  /\ item = returned built
  /\ out st' = out st ++ decode_log mode span ++ build_log built.
Proof.
  intros Hnext s mode hide.
  destruct (next_step_case pep515 Record_ st)
    as [Hc Hn | Hc Hr Hn | Hc Hr Hn | e Hc Hr Hi Hn | L Hc Hr Hi Ht HL Hn
        | L Hc Hr Hi Ht Hn]; fold_everywhere s;
    try (rewrite Hn in Hnext; discriminate).
  cbv zeta in Hn. rewrite Hn in Hnext.
  destruct (raw_is_prefix L (remaining s) Hr) as [Hraw Hlen].
  set (raw := firstn 5 (remaining s) ++ remainder_for L (skipn 5 (remaining s)))
    in *.
  injection Hnext as <- <-.
  unfold at_offset.
  cbn [self out with_stream byte_stream advance s_pos]. fold s.
  replace (s_pos s + length raw - s_pos s) with (length raw) by lia.
  rewrite <- Hraw. fold mode hide.
  repeat split; lia.
Qed.

End StepInvariants.

Lemma next_returns_what_it_consumed_witness :
  let st := reader_over Py.strict (bytes_of "00006A00007BC") in
  fst (MARCReader_next true accept_all st)
  = inl (Some (PyStr (map Py.code (bytes_of "00006A")))).
Proof.
  intros st.
  destruct (@next_returns_what_it_consumed true pyval accept_all st _ _ eq_refl)
    as (_ & _ & Hitem & _).
  exact (f_equal (@inl _ exn) Hitem).
Defined.

(** ** When a step raises, and how long a loop can run *)


Section StepErrors.

Variable pep515 : bool.
Variable record : Type.
Variable Record_ : pyval -> bool -> Py.errors_mode -> record + exn.

Local Abbreviation next := (MARCReader_next pep515 Record_).

(** X3.  [__next__] lets three exceptions out and no other, whatever the
    record builder raises: [StopIteration] exactly when the open stream is
    at its end; [RecordLengthInvalid] exactly when one to four bytes are
    left; [ValueError] exactly when the stream is closed, or when five
    bytes are there and either [int] rejects them or they ask a
    [BufferedReader] for a size below -1. *)
Theorem next_error_conditions st :
  let s := byte_stream (self st) in
  let raised := fst (next st) in
  (forall e, raised = inr e ->
             e = StopIteration \/ e = RecordLengthInvalid \/ e = ValueError)
  /\ (raised = inr StopIteration
      <-> s_closed s = false /\ remaining s = [])
  /\ (raised = inr RecordLengthInvalid
      <-> s_closed s = false /\ 1 <= length (remaining s) <= 4)
  /\ (raised = inr ValueError
      <-> s_closed s = true
          \/ (5 <= length (remaining s)
              /\ match Py.int_of_bytes pep515 (firstn 5 (remaining s)) with
                 | inr _ => True
                 | inl L => s_type s = BufferedReader /\ (L < 4)%Z
                 end)).
Proof.
  intros s raised. subst raised.
  destruct (next_step_case pep515 Record_ st)
    as [Hc Hn | Hc Hr Hn | Hc Hr Hn | e Hc Hr Hi Hn | L Hc Hr Hi Ht HL Hn
        | L Hc Hr Hi Ht Hn]; fold_everywhere s;
    cbv zeta in Hn; rewrite Hn; cbn [fst].
  all: split; [intros e0 [= <-] || (intros e0; discriminate); auto|].
  all: repeat split; intros; settle_case; auto.
  all: try (right; rewrite Hi; auto).
Qed.

End StepErrors.

Section LoopBound.

Variable pep515 : bool.
Variable record : Type.
Variable Record_ : pyval -> bool -> Py.errors_mode -> record + exn.

Local Abbreviation next := (MARCReader_next pep515 Record_).

(** A call that returns leaves at least five bytes fewer in front of the
    cursor. *)
Lemma next_returned_progress st item st' :
  next st = (inl item, st') ->
  length (remaining (byte_stream (self st'))) + 5
  <= length (remaining (byte_stream (self st))).
Proof.
  intros Hnext.
  destruct (next_step_case pep515 Record_ st)
    as [Hc Hn | Hc Hr Hn | Hc Hr Hn | e Hc Hr Hi Hn | L Hc Hr Hi Ht HL Hn
        | L Hc Hr Hi Ht Hn];
    try (rewrite Hn in Hnext; discriminate).
  cbv zeta in Hn.
  destruct (raw_is_prefix L (remaining (byte_stream (self st))) Hr) as [_ Hlen].
  set (raw := firstn 5 (remaining (byte_stream (self st))) ++ _) in *.
  rewrite Hn in Hnext. injection Hnext as _ <-.
  unfold at_offset. cbn [self with_stream byte_stream].
  rewrite remaining_advance, length_skipn. lia.
Qed.

(** X4.  A loop over the reader ends by itself: with more than a fifth as
    many steps as there are bytes in front of the cursor it is over before
    the steps run out, by [StopIteration] or by another exception, and it
    yields at most one item per five bytes. *)
Theorem iterate_ends_within_bound steps : forall st,
  length (remaining (byte_stream (self st))) < 5 * steps ->
  (snd (fst (iterate pep515 Record_ steps st)) = Exhausted
   \/ exists e, snd (fst (iterate pep515 Record_ steps st)) = Propagated e)
  /\ 5 * length (fst (fst (iterate pep515 Record_ steps st)))
     <= length (remaining (byte_stream (self st))).
Proof.
  induction steps as [|steps IH]; intros st Hlen; [simpl in Hlen; lia|].
  cbn [iterate].
  destruct (next st) as [[item|e] st'] eqn:Hnext.
  - pose proof (next_returned_progress _ Hnext) as Hprog.
    destruct (IH st' ltac:(lia)) as [Hfin Hitems].
    destruct (iterate pep515 Record_ steps st') as [[items fin] st''].
    cbn [fst snd] in *. split; [assumption | simpl; lia].
  - destruct e; cbn [fst snd]; (split; [eauto | simpl; lia]).
Qed.

End LoopBound.

Lemma iterate_ends_within_bound_witness :
  5 * length (fst (fst (iterate true accept_all 3
                          (reader_over Py.strict (bytes_of "00006A00007BC")))))
  <= 13.
Proof.
  refine (proj2 (@iterate_ends_within_bound true pyval accept_all 3
                   (reader_over Py.strict (bytes_of "00006A00007BC")) _)).
  simpl. lia.
Defined.

(** ** Declared lengths below five *)

Section SmallLengths.

Variable pep515 : bool.
Variable record : Type.
Variable Record_ : pyval -> bool -> Py.errors_mode -> record + exn.

Local Abbreviation next := (MARCReader_next pep515 Record_).

(** X5.  A prefix that parses to a length below five makes the second read
    ask for a negative size.  A [BufferedReader] refuses sizes below -1
    with [ValueError], the cursor standing behind the prefix; for a
    [BytesIO], and for the size -1, the read takes everything up to the end
    of the stream, so the whole rest of the input becomes one chunk and
    the stream is left at its end. *)
Theorem declared_length_below_five st L :
  let s := byte_stream (self st) in
  let mode := utf8_handling (self st) in
  let hide := hide_utf8_warnings (self st) in
  s_closed s = false ->
  5 <= length (remaining s) ->
  Py.int_of_bytes pep515 (firstn 5 (remaining s)) = inl L ->
  (L < 5)%Z ->
  (s_type s = BufferedReader -> (L < 4)%Z ->
   next st = (inr ValueError, at_offset st 5))
  /\ (s_type s = BytesIO \/ L = 4%Z ->
      let built := Record_ (chunk_after_decode mode (remaining s)) hide mode in
      next st
      = (inl (returned built),
         mkState (self (at_offset st (length (remaining s))))
                 (out st ++ decode_log mode (remaining s) ++ build_log built))
      /\ remaining (byte_stream (self (at_offset st (length (remaining s)))))
         = []).
Proof.
  intros s mode hide Hopen Hge Hint Hsmall.
  destruct (next_step_case pep515 Record_ st)
    as [Hc Hn | Hc Hr Hn | Hc Hr Hn | e Hc Hr Hi Hn | L' Hc Hr Hi Ht HL Hn
        | L' Hc Hr Hi Ht Hn]; fold_everywhere s;
    try congruence; try (rewrite Hr in Hge; simpl in Hge; lia); try lia.
  - assert (L' = L) by congruence. subst L'.
    split; [intros _ _; exact Hn|].
    intros [Hb | ->]; [congruence | lia].
  - assert (L' = L) by congruence. subst L'.
    split; [intros Hb HL; destruct Ht; [congruence | lia]|].
    intros _. cbv zeta in Hn.
    assert (Hraw : firstn 5 (remaining s) ++ remainder_for L (skipn 5 (remaining s))
                   = remaining s).
    { unfold remainder_for. rewrite (proj2 (Z.ltb_lt _ _)) by lia.
      apply firstn_skipn. }
    rewrite Hraw in Hn. split; [exact Hn|].
    unfold at_offset. cbn [self with_stream byte_stream]. fold s.
    now rewrite remaining_advance, skipn_all.
Qed.

End SmallLengths.

Lemma declared_length_below_five_witness :
  let data := bytes_of "00003A00006B" in
  fst (MARCReader_next true accept_all (reader_over Py.strict data))
  = inl (Some (PyStr (map Py.code data))).
Proof.
  intros data.
  destruct (@declared_length_below_five true pyval accept_all
              (reader_over Py.strict data) 3%Z
              eq_refl ltac:(simpl; lia) eq_refl eq_refl) as [_ Hall].
  destruct (Hall (or_introl eq_refl)) as [Hnext _].
  exact (f_equal fst Hnext).
Defined.

(** ** Decoding under the four handling modes *)

Lemma emit_strict_any mode e t :
  Py.emit Py.strict e = inl t -> Py.emit mode e = inl t.
Proof. destruct e; simpl; congruence. Qed.

(** What decodes under [strict] decodes to the same text under every
    mode. *)
Lemma decode_from_strict_any mode bs : forall st text,
  Py.decode_from Py.strict st bs = inl text ->
  Py.decode_from mode st bs = inl text.
Proof.
  induction bs as [|b r IH]; intros st text; simpl.
  - destruct st; [auto | discriminate].
  - destruct (Py.feed st (Py.code b)) as [[e1 e2] st'].
    destruct (Py.emit Py.strict e1) as [t1|] eqn:H1; [|discriminate].
    destruct (Py.emit Py.strict e2) as [t2|] eqn:H2; [|discriminate].
    destruct (Py.decode_from Py.strict st' r) as [t|] eqn:H3; [|discriminate].
    intros [= <-].
    now rewrite (emit_strict_any mode _ H1), (emit_strict_any mode _ H2),
      (IH _ _ H3).
Qed.

Lemma emit_xml_strict e :
  Py.emit Py.xmlcharrefreplace e
  = match Py.emit Py.strict e with
    | inl t => inl t
    | inr _ => inr TypeError
    end.
Proof. now destruct e. Qed.

(** What [strict] refuses, [xmlcharrefreplace] refuses with [TypeError]. *)
Lemma decode_from_xml_strict bs : forall st,
  Py.decode_from Py.xmlcharrefreplace st bs
  = match Py.decode_from Py.strict st bs with
    | inl t => inl t
    | inr _ => inr TypeError
    end.
Proof.
  induction bs as [|b r IH]; intros st; simpl.
  - now destruct st.
  - destruct (Py.feed st (Py.code b)) as [[e1 e2] st'].
    rewrite !emit_xml_strict, IH.
    destruct (Py.emit Py.strict e1); [|reflexivity].
    destruct (Py.emit Py.strict e2); [|reflexivity].
    now destruct (Py.decode_from Py.strict st' r).
Qed.

Section DecodingModes.

Variable pep515 : bool.
Variable record : Type.
Variable Record_ : pyval -> bool -> Py.errors_mode -> record + exn.

Local Abbreviation next := (MARCReader_next pep515 Record_).

(** X6.  When the bytes a call has taken are valid UTF-8, [utf8_handling]
    makes no difference to the decoding: under each of the four modes the
    builder is called with the same text, and decoding logs nothing. *)
Theorem valid_utf8_decodes_alike_under_every_mode st item st' text :
  next st = (inl item, st') ->
  let s := byte_stream (self st) in
  let mode := utf8_handling (self st) in
  let hide := hide_utf8_warnings (self st) in
  let span := firstn (s_pos (byte_stream (self st')) - s_pos s) (remaining s) in
  Py.decode_utf8 Py.strict span = inl text ->
  let built := Record_ (PyStr text) hide mode in
  Py.decode_utf8 mode span = inl text
  /\ item = returned built
  /\ out st' = out st ++ build_log built.
Proof.
  intros Hnext s mode hide span Hvalid built.
  destruct (@next_returned_inv pep515 record Record_ _ _ _ Hnext)
    as (_ & _ & Hitem & Hout).
  fold s mode hide span in Hitem, Hout.
  pose proof (@decode_from_strict_any mode span Py.Start text Hvalid) as Hmode.
  change (Py.decode_from mode Py.Start span) with (Py.decode_utf8 mode span)
    in Hmode.
  unfold chunk_after_decode, decode_log in Hitem, Hout.
  rewrite Hmode in Hitem, Hout. auto.
Qed.

(** X7.  When the bytes a call has taken are not valid UTF-8, the three
    modes other than [strict] part ways.  Under [replace] and [ignore]
    decoding still succeeds: the builder gets text and nothing is logged.
    Under [xmlcharrefreplace] the codec raises [TypeError]: the builder
    gets the raw bytes and the log says
    "TypeError chunk type is <class 'bytes'>". *)
Theorem malformed_utf8_under_the_lenient_modes st item st' x :
  next st = (inl item, st') ->
  let s := byte_stream (self st) in
  let mode := utf8_handling (self st) in
  let hide := hide_utf8_warnings (self st) in
  let span := firstn (s_pos (byte_stream (self st')) - s_pos s) (remaining s) in
  Py.decode_utf8 Py.strict span = inr x ->
  (mode = Py.replace \/ mode = Py.ignore ->
   exists text,
     Py.decode_utf8 mode span = inl text
     /\ item = returned (Record_ (PyStr text) hide mode)
     /\ out st' = out st ++ build_log (Record_ (PyStr text) hide mode))
  /\ (mode = Py.xmlcharrefreplace ->
      item = returned (Record_ (PyBytes span) hide mode)
      /\ out st'
         = out st ++ [LogError "TypeError chunk type is <class 'bytes'>"]
           ++ build_log (Record_ (PyBytes span) hide mode)).
Proof.
  intros Hnext s mode hide span Hbad.
  destruct (@next_returned_inv pep515 record Record_ _ _ _ Hnext)
    as (_ & _ & Hitem & Hout).
  fold s mode hide span in Hitem, Hout.
  unfold chunk_after_decode, decode_log in Hitem, Hout.
  split.
  - intros Hmode. destruct (@decode_utf8_lenient mode span Hmode) as [text Hdec].
    exists text. rewrite Hdec in Hitem, Hout. auto.
  - intros Hmode.
    assert (Hdec : Py.decode_utf8 mode span = inr TypeError).
    { rewrite Hmode. unfold Py.decode_utf8 in *.
      now rewrite decode_from_xml_strict, Hbad. }
    rewrite Hdec in Hitem, Hout. auto.
Qed.

End DecodingModes.

Lemma valid_utf8_decodes_alike_under_every_mode_witness :
  let data := bytes_of "00007" ++ [xc3; xa9] in
  fst (MARCReader_next true accept_all (reader_over Py.xmlcharrefreplace data))
  = inl (Some (PyStr (map Py.code (bytes_of "00007") ++ [233%N]))).
Proof.
  intros data.
  destruct (@valid_utf8_decodes_alike_under_every_mode true pyval accept_all
              (reader_over Py.xmlcharrefreplace data) _ _
              (map Py.code (bytes_of "00007") ++ [233%N]) eq_refl eq_refl)
    as (_ & Hitem & _).
  exact (f_equal (@inl _ exn) Hitem).
Defined.

Lemma malformed_utf8_under_the_lenient_modes_witness :
  let data := bytes_of "00006" ++ [xff] in
  out (snd (MARCReader_next true accept_all
              (reader_over Py.xmlcharrefreplace data)))
  = [LogError "TypeError chunk type is <class 'bytes'>"]
  /\ fst (MARCReader_next true accept_all (reader_over Py.replace data))
     = inl (Some (PyStr (map Py.code (bytes_of "00006") ++ [65533%N]))).
Proof.
  intros data. split.
  - destruct (@malformed_utf8_under_the_lenient_modes true pyval accept_all
                (reader_over Py.xmlcharrefreplace data) _ _
                UnicodeDecodeError eq_refl eq_refl) as [_ Hxml].
    exact (proj2 (Hxml eq_refl)).
  - destruct (@malformed_utf8_under_the_lenient_modes true pyval accept_all
                (reader_over Py.replace data) _ _
                UnicodeDecodeError eq_refl eq_refl) as [Hlen _].
    destruct (Hlen (or_introl eq_refl)) as (text & Hdec & Hitem & _).
    injection Hdec as <-. exact (f_equal (@inl _ exn) Hitem).
Defined.

(** ** A loop over well-formed records *)

Lemma at_offset_at_offset st a log b :
  self (at_offset (mkState (self (at_offset st a)) log) b)
  = self (at_offset st (a + b)).
Proof.
  unfold at_offset. cbn [self out with_stream byte_stream utf8_handling
                         hide_utf8_warnings].
  now rewrite advance_advance.
Qed.

Section LoopOverRecords.

Variable pep515 : bool.
Variable record : Type.
Variable Record_ : pyval -> bool -> Py.errors_mode -> record + exn.

Local Abbreviation next := (MARCReader_next pep515 Record_).

Lemma iterate_on_records rs : forall st,
  s_closed (byte_stream (self st)) = false ->
  remaining (byte_stream (self st)) = concat rs ->
  Forall well_formed rs ->
  let mode := utf8_handling (self st) in
  let hide := hide_utf8_warnings (self st) in
  let build r := Record_ (chunk_after_decode mode r) hide mode in
  iterate pep515 Record_ (S (length rs)) st
  = (map (fun r => returned (build r)) rs, Exhausted,
     mkState (self (at_offset st (length (concat rs))))
             (out st ++ flat_map (fun r => decode_log mode r ++ build_log (build r))
                                 rs)).
Proof.
  induction rs as [|r rs IH]; intros st Hopen Hrem Hwf mode hide build.
  - assert (H : byte_stream_read 5 st = (inl [], st)).
    { unfold byte_stream_read. rewrite stream_read_eof by assumption.
      destruct st as [[m h s] log]. reflexivity. }
    cbn [iterate length]. rewrite (@next_StopIteration pep515 record Record_ _ _ H).
    simpl. rewrite app_nil_r.
    unfold at_offset. rewrite advance_0.
    destruct st as [[m h s] log]. reflexivity.
  - inversion Hwf as [|r' rs' Hr Hrs]; subst r' rs'.
    destruct (well_formed_split Hr)
      as (first5 & body & Hsplit & Hlen & Hint & Hbody).
    simpl in Hrem. rewrite Hsplit, <- app_assoc in Hrem.
    destruct (@next_on_record pep515 record Record_ st first5 body (concat rs)
                (Z.of_nat (length r)) Hopen Hrem Hlen (Hint pep515) Hbody)
      as [Hn Htail].
    rewrite <- Hsplit in Hn, Htail. fold mode hide in Hn. fold (build r) in Hn.
    change (length (r :: rs)) with (S (length rs)).
    remember (S (length rs)) as n eqn:Hn'.
    cbn [iterate]. rewrite Hn. subst n.
    match goal with
    | |- context [iterate _ _ _ ?st1] => set (st' := st1)
    end.
    specialize (IH st' Hopen Htail Hrs). cbv zeta in IH.
    change (utf8_handling (self st')) with mode in IH.
    change (hide_utf8_warnings (self st')) with hide in IH.
    fold build in IH. rewrite IH.
    cbn [map flat_map concat]. rewrite length_app.
    f_equal. unfold st'.
    change (with_stream (self st) (advance (byte_stream (self st)) (length r)))
      with (self (at_offset st (length r))).
    rewrite at_offset_at_offset. cbn [out]. now rewrite <- !app_assoc.
Qed.

(** X8.  Over an open stream that holds well-formed records from the
    cursor on, the loop yields one item per record, in the order of the
    stream: what the builder makes of that record's bytes after decoding
    ([None] where the builder raises).  It then ends by [StopIteration]
    with the cursor at the end of the data, having logged the records'
    decoding and building failures in the same order. *)
Theorem loop_yields_each_record_in_order st rs :
  let s := byte_stream (self st) in
  let mode := utf8_handling (self st) in
  let hide := hide_utf8_warnings (self st) in
  let build r := Record_ (chunk_after_decode mode r) hide mode in
  s_closed s = false ->
  remaining s = concat rs ->
  Forall well_formed rs ->
  forall steps, length rs < steps ->
  let '(items, fin, st') := iterate pep515 Record_ steps st in
  items = map (fun r => returned (build r)) rs
  /\ fin = Exhausted
  /\ s_pos (byte_stream (self st')) = s_pos s + length (remaining s)
  /\ out st'
     = out st ++ flat_map (fun r => decode_log mode r ++ build_log (build r)) rs.
Proof.
  intros s mode hide build Hopen Hrem Hwf steps Hsteps.
  assert (Hmore : forall k st0 items fin st1,
             iterate pep515 Record_ k st0 = (items, fin, st1) ->
             fin = Exhausted ->
             forall extra, iterate pep515 Record_ (k + extra) st0 = (items, fin, st1)).
  { induction k as [|k IHk]; intros st0 items fin st1; simpl.
    - intros [= <- <- <-]. discriminate.
    - destruct (next st0) as [[item|e] st2].
      + destruct (iterate pep515 Record_ k st2) as [[items' fin'] st3] eqn:Hk.
        intros [= <- <- <-] Hfin extra. now rewrite (IHk _ _ _ _ Hk Hfin).
      + destruct e; intros [= <- <- <-]; try discriminate; auto. }
  pose proof (iterate_on_records st Hopen Hrem Hwf) as Hrun.
  cbv zeta in Hrun. fold s mode hide build in Hrun.
  replace steps with (S (length rs) + (steps - S (length rs))) by lia.
  rewrite (Hmore _ _ _ _ _ Hrun eq_refl).
  split; [reflexivity|]. split; [reflexivity|]. split; [|reflexivity].
  unfold at_offset. cbn [self with_stream byte_stream advance s_pos].
  fold s. now rewrite Hrem.
Qed.

End LoopOverRecords.

Lemma loop_yields_each_record_in_order_witness :
  fst (fst (iterate true reject_all 7
              (reader_over Py.strict (bytes_of "00006A00007BC"))))
  = [None; None].
Proof.
  pose proof (@loop_yields_each_record_in_order true pyval reject_all
                (reader_over Py.strict (bytes_of "00006A00007BC"))
                [bytes_of "00006A"; bytes_of "00007BC"]
                eq_refl eq_refl ltac:(repeat constructor) 7 ltac:(simpl; lia))
    as Hloop.
  destruct (iterate true reject_all 7 _) as [[items fin] st'].
  exact (proj1 Hloop).
Defined.

(** ** Text payloads *)

Lemma byte_of_code_code b : Py.byte_of_code (Py.code b) = b.
Proof. destruct b; reflexivity. Qed.

Lemma encode_ascii_text mode text :
  ascii_text text ->
  Py.encode_ascii mode text = inl (map Py.byte_of_code text).
Proof.
  induction 1 as [|cp text Hcp _ IH]; [reflexivity|].
  simpl. unfold Py.encode_char.
  now rewrite (proj2 (N.ltb_lt _ _) Hcp), IH.
Qed.

Lemma decode_ascii_bytes mode bs :
  ascii_only bs -> Py.decode_utf8 mode bs = inl (map Py.code bs).
Proof.
  unfold Py.decode_utf8.
  induction 1 as [|b bs Hb _ IH]; [reflexivity|].
  simpl. unfold Py.start_byte.
  rewrite (proj2 (N.ltb_lt _ _) Hb). simpl. now rewrite IH.
Qed.

Lemma ascii_only_codes bs : ascii_only bs -> ascii_text (map Py.code bs).
Proof. unfold ascii_only, ascii_text. now rewrite Forall_map. Qed.

Lemma map_byte_of_code_code bs : map Py.byte_of_code (map Py.code bs) = bs.
Proof.
  rewrite map_map. rewrite <- (map_id bs) at 2.
  apply map_ext. apply byte_of_code_code.
Qed.

Lemma encode_ascii_raises mode text e :
  Py.encode_ascii mode text = inr e ->
  mode = Py.strict /\ e = UnicodeEncodeError
  /\ Exists (fun cp => (128 <= cp)%N) text.
Proof.
  induction text as [|cp text IH]; [discriminate|].
  simpl. unfold Py.encode_char.
  destruct (cp <? 128)%N eqn:Hcp.
  - destruct (Py.encode_ascii mode text) as [rest|e'] eqn:Hrest; [discriminate|].
    intros [= <-]. destruct (IH eq_refl) as (Hm & He & Hex). auto.
  - apply N.ltb_ge in Hcp.
    destruct mode; simpl;
      try (destruct (Py.encode_ascii _ text) as [rest|e'] eqn:Hrest;
           [discriminate|];
           intros [= <-]; destruct (IH eq_refl) as (Hm & _); discriminate).
    intros [= <-]. auto.
Qed.

Lemma encode_ascii_replace_length text raw :
  Py.encode_ascii Py.replace text = inl raw -> length raw = length text.
Proof.
  revert raw. induction text as [|cp text IH]; intros raw.
  - now intros [= <-].
  - simpl. unfold Py.encode_char.
    destruct (Py.encode_ascii Py.replace text) as [rest|e]; 
      destruct (cp <? 128)%N; try discriminate;
      intros [= <-]; simpl; now rewrite (IH rest eq_refl).
Qed.

Section TextPayloads.

Variable pep515 : bool.
Variable record : Type.
Variable Record_ : pyval -> bool -> Py.errors_mode -> record + exn.
Variable collections_Callable : bool.
Variable BufferedReader_ : marc_target -> stream + exn.

Local Abbreviation init := (MARCReader_init collections_Callable BufferedReader_).

(** X9.  A [str] of ASCII characters that spells well-formed records makes
    the round trip through the constructor's [encode] and the step's
    [decode] unchanged, under every handling mode: the reader is built, and
    a loop over it hands the builder, record by record and in order,
    exactly the corresponding piece of the original text, then ends. *)
Theorem ascii_str_payload_comes_back_as_text rs kw w log :
  Forall well_formed rs ->
  ascii_only (concat rs) ->
  let text := map Py.code (concat rs) in
  let build r :=
    Record_ (PyStr (map Py.code r)) (configured_hide kw) (configured_mode kw) in
  exists reader w',
    init (TextPayload text) kw w = (inl reader, w')
    /\ s_data (byte_stream reader) = concat rs
    /\ fst (iterate pep515 Record_ (S (length rs)) (mkState reader log))
       = (map (fun r => returned (build r)) rs, Exhausted).
Proof.
  intros Hwf Hascii text build.
  assert (Henc : Py.encode_ascii (configured_mode kw) text = inl (concat rs)).
  { unfold text. rewrite encode_ascii_text by now apply ascii_only_codes.
    now rewrite map_byte_of_code_code. }
  rewrite (@init_encodes collections_Callable BufferedReader_ text kw w (concat rs) Henc).
  eexists _, _. split; [reflexivity|]. split; [reflexivity|].
  rewrite iterate_on_records; [| reflexivity | reflexivity | assumption].
  cbn [fst self utf8_handling hide_utf8_warnings]. f_equal.
  apply map_ext_in. intros r Hin. unfold build, chunk_after_decode.
  rewrite decode_ascii_bytes; [reflexivity|].
  unfold ascii_only in *. rewrite Forall_forall in *.
  intros b Hb. apply Hascii. apply in_concat. eauto.
Qed.

(** X10.  A [str] payload always yields a reader over a fresh [BytesIO]
    unless [utf8_handling] is [strict] and the text holds a character
    above U+007F; in that case the constructor raises [UnicodeEncodeError]
    and has touched nothing.  Under [replace] the stream has as many bytes
    as the text has characters. *)
Theorem str_payload_constructs_unless_strict_meets_non_ascii text kw w :
  (configured_mode kw <> Py.strict \/ ascii_text text ->
   exists raw,
     Py.encode_ascii (configured_mode kw) text = inl raw
     /\ init (TextPayload text) kw w
        = (inl (mkReader (configured_mode kw) (configured_hide kw)
                         (mkStream BytesIO (next_id w) false raw 0)),
           mkWorld (fs w) (open_handles w) (S (next_id w)) (trace w))
     /\ (configured_mode kw = Py.replace -> length raw = length text))
  /\ (configured_mode kw = Py.strict ->
      Exists (fun cp => (128 <= cp)%N) text ->
      init (TextPayload text) kw w = (inr UnicodeEncodeError, w)).
Proof.
  split.
  - intros Hok.
    destruct (Py.encode_ascii (configured_mode kw) text) as [raw|e] eqn:Henc.
    + exists raw. split; [reflexivity|].
      split; [exact (@init_encodes collections_Callable BufferedReader_ text kw w raw Henc)|].
      intros Hmode. rewrite Hmode in Henc.
      now apply encode_ascii_replace_length.
    + destruct (encode_ascii_raises _ _ Henc) as (Hmode & _ & Hex).
      destruct Hok as [Hne | Hascii]; [contradiction|].
      rewrite (encode_ascii_text _ Hascii) in Henc. discriminate.
  - intros Hmode Hex.
    destruct (Py.encode_ascii (configured_mode kw) text) as [raw|e] eqn:Henc.
    + exfalso. rewrite Hmode in Henc. clear Hmode.
      revert raw Henc. induction Hex as [cp rest Hcp | cp rest _ IH];
        intros raw; simpl; unfold Py.encode_char.
      * now rewrite (proj2 (N.ltb_ge _ _) Hcp).
      * destruct (cp <? 128)%N; [|discriminate].
        destruct (Py.encode_ascii Py.strict rest) as [raw'|]; [|discriminate].
        intros _. now apply (IH raw').
    + destruct (encode_ascii_raises _ _ Henc) as (_ & -> & _).
      rewrite init_by_branches.
      cbn [has_callable_read hasattr_read hasattr_buffer encode].
      now rewrite Henc.
Qed.

End TextPayloads.


Lemma ascii_str_payload_comes_back_as_text_witness :
  let rs := [bytes_of "00006A"; bytes_of "00007BC"] in
  exists reader w',
    MARCReader_init false no_wrapping (TextPayload (map Py.code (concat rs)))
                    (mkKwargs (Some Py.ignore) None) sample_world
    = (inl reader, w')
    /\ fst (iterate true accept_all 3 (mkState reader []))
       = ([Some (PyStr (map Py.code (bytes_of "00006A")));
           Some (PyStr (map Py.code (bytes_of "00007BC")))], Exhausted).
Proof.
  intros rs.
  destruct (@ascii_str_payload_comes_back_as_text true pyval accept_all
              false no_wrapping rs (mkKwargs (Some Py.ignore) None) sample_world []
              ltac:(repeat constructor) ltac:(repeat constructor))
    as (reader & w' & Hinit & _ & Hloop).
  exists reader, w'. split; [exact Hinit | exact Hloop].
Defined.

Lemma str_payload_constructs_unless_strict_meets_non_ascii_witness :
  MARCReader_init false no_wrapping (TextPayload [48%N; 233%N])
                  (mkKwargs None None) sample_world
  = (inr UnicodeEncodeError, sample_world).
Proof.
  refine (proj2 (@str_payload_constructs_unless_strict_meets_non_ascii
                   false no_wrapping [48%N; 233%N] (mkKwargs None None) sample_world)
                eq_refl _).
  apply Exists_cons_tl, Exists_cons_hd. discriminate.
Defined.

(** ** When construction fails *)

Section ConstructionFailures.

Variable collections_Callable : bool.
Variable BufferedReader_ : marc_target -> stream + exn.

Local Abbreviation init := (MARCReader_init collections_Callable BufferedReader_).

(** X11.  A constructor call that raises has opened no handle and used no
    fresh identity.  Either it has touched nothing at all, or
    [open(name, 'rb')] raised, whatever the reason (no such file, no
    permission, a directory, a descriptor that is gone): then that
    exception is the one that comes out, and the target has been closed
    all the same.  A target with [read] fails with [AttributeError] (it
    has no [name], or the interpreter has no [collections.Callable]) or
    with the exception of [open]; an object with neither [read] nor
    [buffer] fails with [AttributeError] (it is no [str]) or
    [UnicodeEncodeError]. *)
Theorem failed_construction_opens_nothing t kw w e w' :
  init t kw w = (inr e, w') ->
  fs w' = fs w /\ next_id w' = next_id w
  /\ (w' = w
      \/ exists id name,
          target_id t = Some id /\ attr_name t = inl name
          /\ fs w name = inr e
          /\ trace w' = trace w ++ [Closed id]
          /\ open_handles w' = remove Nat.eq_dec id (open_handles w))
  /\ (hasattr_read t = true ->
      e = AttributeError
      \/ exists name, attr_name t = inl name /\ fs w name = inr e)
  /\ (hasattr_read t = false -> hasattr_buffer t = false ->
      e = AttributeError \/ e = UnicodeEncodeError).
Proof.
  rewrite init_by_branches. unfold has_callable_read.
  destruct (hasattr_read t) eqn:Hread.
  - destruct collections_Callable.
    + destruct (as_BufferedReader t) as [s|] eqn:Htype; [discriminate|].
      destruct (attr_name t) as [name|e0] eqn:Hname.
      * destruct (target_id t) as [id|] eqn:Hid.
        -- cbv zeta. destruct (fs w name) as [data|e0] eqn:Hfile;
             [discriminate|].
           intros [= <- <-]. cbn [fs next_id trace open_handles].
           split; [reflexivity|]. split; [reflexivity|].
           split; [right; exists id, name; repeat split; auto|].
           split; [intros _; right; eauto | intros; discriminate].
        -- destruct t; simpl in Hid, Hread; discriminate.
      * intros [= <- <-].
        split; [reflexivity|]. split; [reflexivity|]. split; [now left|].
        split; [|intros; discriminate]. intros _. left.
        destruct t as [[name|] s | [id [name|] b] | |];
          simpl in Hname; congruence.
    + intros [= <- <-].
      split; [reflexivity|]. split; [reflexivity|]. split; [now left|].
      split; [now left | intros; discriminate].
  - destruct (hasattr_buffer t) eqn:Hbuf.
    + destruct (BufferedReader_ t); [discriminate|].
      intros [= <- <-].
      split; [reflexivity|]. split; [reflexivity|]. split; [now left|].
      split; intros; discriminate.
    + destruct (encode t (configured_mode kw)) as [raw|e0] eqn:Henc;
        [discriminate|].
      intros [= <- <-].
      split; [reflexivity|]. split; [reflexivity|]. split; [now left|].
      split; [intros; discriminate|]. intros _ _.
      destruct t; simpl in Henc; try (left; congruence).
      right. now destruct (encode_ascii_raises _ _ Henc) as (_ & -> & _).
Qed.

End ConstructionFailures.

Lemma failed_construction_opens_nothing_witness :
  let run target :=
    MARCReader_init true no_wrapping target (mkKwargs None None) sample_world in
  (fst (run stale_text_file) = inr FileNotFoundError
   /\ trace (snd (run stale_text_file)) = [Closed 3]
   /\ next_id (snd (run stale_text_file)) = next_id sample_world)
  /\ (fst (run secret_text_file) = inr (OtherError "PermissionError")
      /\ next_id (snd (run secret_text_file)) = next_id sample_world)
  /\ (fst (run descriptor_text_file) = inr (OtherError "OSError")
      /\ next_id (snd (run descriptor_text_file)) = next_id sample_world)
  /\ (fst (run memory_file) = inr AttributeError
      /\ next_id (snd (run memory_file)) = next_id sample_world).
Proof.
  intros run.
  split; [|split; [|split]].
  - destruct (@failed_construction_opens_nothing true no_wrapping
                stale_text_file (mkKwargs None None) sample_world
                FileNotFoundError (snd (run stale_text_file)) eq_refl)
      as (_ & Hid & _ & _).
    split; [reflexivity|]. split; [reflexivity | exact Hid].
  - destruct (@failed_construction_opens_nothing true no_wrapping
                secret_text_file (mkKwargs None None) sample_world
                (OtherError "PermissionError") (snd (run secret_text_file))
                eq_refl)
      as (_ & Hid & _ & _).
    split; [reflexivity | exact Hid].
  - destruct (@failed_construction_opens_nothing true no_wrapping
                descriptor_text_file (mkKwargs None None) sample_world
                (OtherError "OSError") (snd (run descriptor_text_file))
                eq_refl)
      as (_ & Hid & _ & _).
    split; [reflexivity | exact Hid].
  - destruct (@failed_construction_opens_nothing true no_wrapping
                memory_file (mkKwargs None None) sample_world
                AttributeError (snd (run memory_file)) eq_refl)
      as (_ & Hid & _ & _).
    split; [reflexivity | exact Hid].
Defined.

(** ** The legacy reader *)

Section LegacyReader.

Variable pep515 : bool.
Variable record : Type.
Variable Record_ : pyval -> bool -> Py.errors_mode -> record + exn.
Variable Record_kw :
  list byte -> bool -> bool -> bool -> Py.errors_mode -> record + exn.
Variable TextIOWrapper_accepts : marc_target -> unit + exn.
Variable BufferedReader_ : marc_target -> stream + exn.

Local Abbreviation next := (MARCReader_next pep515 Record_).
Local Abbreviation legacy_next := (Depreciated.next pep515 Record_kw).

(** X12.  [DepreciatedMARCReader] cannot be instantiated: its constructor
    starts with [super(MARCReader, self).__init__()], and [MARCReader] is
    not among the classes of a [DepreciatedMARCReader], so the call raises
    [TypeError] for every argument, before any wrapper is built or anything
    is logged. *)
Theorem legacy_constructor_always_raises
        t to_unicode force_utf8 hide mode w :
  existsb (pyclass_eqb cls_MARCReader) (mro cls_DepreciatedMARCReader) = false
  /\ existsb (pyclass_eqb cls_MARCReader) (mro cls_MARCReader) = true
  /\ Depreciated.init TextIOWrapper_accepts BufferedReader_
                      t to_unicode force_utf8 hide mode w
     = (inr TypeError, w).
Proof. repeat split. Qed.

(** Both [__next__] methods, spelled out along their two reads. *)
Lemma legacy_next_by_reads lg :
  legacy_next lg
  = match stream_read (Depreciated.file_handle lg) 5 with
    | (inr e, s1) => (inr e, Depreciated.with_file_handle lg s1)
    | (inl [], s1) => (inr StopIteration, Depreciated.with_file_handle lg s1)
    | (inl first5, s1) =>
      if (length first5 <? 5)%nat
      then (inr RecordLengthInvalid, Depreciated.with_file_handle lg s1)
      else
        match Py.int_of_bytes pep515 first5 with
        | inr e => (inr e, Depreciated.with_file_handle lg s1)
        | inl L =>
          match stream_read s1 (L - 5) with
          | (inr e, s2) => (inr e, Depreciated.with_file_handle lg s2)
          | (inl rest, s2) =>
            (Record_kw (first5 ++ rest) (Depreciated.to_unicode lg)
                       (Depreciated.force_utf8 lg)
                       (Depreciated.hide_utf8_warnings lg)
                       (Depreciated.utf8_handling lg),
             Depreciated.with_file_handle lg s2)
          end
        end
    end.
Proof.
  unfold Depreciated.next, bind, Depreciated.file_handle_read, lift, raise,
    Depreciated.attr, ret.
  destruct (stream_read (Depreciated.file_handle lg) 5) as [[first5|e] s1];
    [|reflexivity].
  destruct first5 as [|b r]; [reflexivity|].
  destruct (length (b :: r) <? 5)%nat; [reflexivity|].
  destruct (Py.int_of_bytes pep515 (b :: r)) as [L|e]; [|reflexivity].
  cbn [Depreciated.file_handle Depreciated.with_file_handle].
  destruct (stream_read s1 (L - 5)) as [[rest|e] s2]; [|reflexivity].
  cbn [Depreciated.to_unicode Depreciated.force_utf8
       Depreciated.hide_utf8_warnings Depreciated.utf8_handling
       Depreciated.with_file_handle].
  now destruct (Record_kw _ _ _ _ _).
Qed.

Lemma next_by_reads st :
  let mode := utf8_handling (self st) in
  let hide := hide_utf8_warnings (self st) in
  next st
  = match stream_read (byte_stream (self st)) 5 with
    | (inr e, s1) => (inr e, mkState (with_stream (self st) s1) (out st))
    | (inl [], s1) =>
      (inr StopIteration, mkState (with_stream (self st) s1) (out st))
    | (inl first5, s1) =>
      if (length first5 <? 5)%nat
      then (inr RecordLengthInvalid, mkState (with_stream (self st) s1) (out st))
      else
        match Py.int_of_bytes pep515 first5 with
        | inr e => (inr e, mkState (with_stream (self st) s1) (out st))
        | inl L =>
          match stream_read s1 (L - 5) with
          | (inr e, s2) => (inr e, mkState (with_stream (self st) s2) (out st))
          | (inl rest, s2) =>
            let raw := first5 ++ rest in
            let built := Record_ (chunk_after_decode mode raw) hide mode in
            (inl (returned built),
             mkState (with_stream (self st) s2)
                     (out st ++ decode_log mode raw ++ build_log built))
          end
        end
    end.
Proof.
  intros mode hide.
  destruct (stream_read (byte_stream (self st)) 5) as [[first5|e] s1] eqn:H5.
  - assert (Hread : byte_stream_read 5 st
                    = (inl first5, mkState (with_stream (self st) s1) (out st)))
      by (unfold byte_stream_read; now rewrite H5).
    destruct first5 as [|b r];
      [exact (@next_StopIteration pep515 record Record_ _ _ Hread)|].
    destruct (length (b :: r) <? 5)%nat eqn:Hlen.
    + apply Nat.ltb_lt in Hlen.
      apply (@next_RecordLengthInvalid pep515 record Record_ _ _ _ Hread).
      simpl in *. lia.
    + apply Nat.ltb_ge in Hlen.
      assert (Hfive : length (b :: r) = 5).
      { apply stream_read_inl in H5 as (_ & _ & Hle).
        specialize (Hle ltac:(lia)). simpl in *. lia. }
      destruct (Py.int_of_bytes pep515 (b :: r)) as [L|e] eqn:Hint.
      * destruct (stream_read s1 (L - 5)) as [[rest|e] s2] eqn:Hrest.
        -- assert (Hsecond :
                     byte_stream_read (L - 5)
                       (mkState (with_stream (self st) s1) (out st))
                     = (inl rest,
                        mkState (with_stream (self st) s2) (out st)))
             by (unfold byte_stream_read; cbn [self out byte_stream with_stream];
                 now rewrite Hrest).
           exact (@next_returns pep515 record Record_ _ _ _ _ _ _
                    Hread Hfive Hint Hsecond).
        -- assert (Hsecond :
                     byte_stream_read (L - 5)
                       (mkState (with_stream (self st) s1) (out st))
                     = (inr e,
                        mkState (with_stream (self st) s2) (out st)))
             by (unfold byte_stream_read; cbn [self out byte_stream with_stream];
                 now rewrite Hrest).
           exact (@next_remainder_raises pep515 record Record_ _ _ _ _ _ _
                    Hread Hfive Hint Hsecond).
      * rewrite (int_of_bytes_raises _ _ Hint).
        exact (@next_ValueError_prefix pep515 record Record_ _ _ _ _
                 Hread Hfive Hint).
  - apply (@next_read_raises pep515 record Record_).
    unfold byte_stream_read. now rewrite H5.
Qed.

(** X13.  The legacy [__next__] frames exactly like [MARCReader.__next__]:
    from the same stream both leave the same stream behind, and whenever
    the latter raises ([StopIteration], [RecordLengthInvalid] or
    [ValueError]) the legacy method raises the same exception. *)
Theorem legacy_next_frames_like_next lg st :
  Depreciated.file_handle lg = byte_stream (self st) ->
  Depreciated.file_handle (snd (legacy_next lg)) = byte_stream (self (snd (next st)))
  /\ forall e, fst (next st) = inr e -> fst (legacy_next lg) = inr e.
Proof.
  intros Hsame.
  rewrite legacy_next_by_reads, next_by_reads, Hsame.
  destruct (stream_read (byte_stream (self st)) 5) as [[first5|e] s1].
  - destruct first5 as [|b r]; [split; [reflexivity | intros e0 [= <-]; reflexivity]|].
    destruct (length (b :: r) <? 5)%nat; [split; [reflexivity | intros e0 [= <-]; reflexivity]|].
    destruct (Py.int_of_bytes pep515 (b :: r)) as [L|e];
      [|split; [reflexivity | intros e0 [= <-]; reflexivity]].
    destruct (stream_read s1 (L - 5)) as [[rest|e] s2];
      [|split; [reflexivity | intros e0 [= <-]; reflexivity]].
    split; [reflexivity|]. intros e. discriminate.
  - split; [reflexivity | intros e0 [= <-]; reflexivity].
Qed.

(** X14.  Where [MARCReader.__next__] returns, the legacy method calls the
    builder on the raw bytes the step has taken, never on decoded text,
    and its outcome is the builder's outcome as it is: the record, or the
    builder's exception, which is not caught and reaches the caller. *)
Theorem legacy_next_passes_builder_outcome_through lg st item st' :
  Depreciated.file_handle lg = byte_stream (self st) ->
  next st = (inl item, st') ->
  let s := byte_stream (self st) in
  let span := firstn (s_pos (byte_stream (self st')) - s_pos s) (remaining s) in
  fst (legacy_next lg)
  = Record_kw span (Depreciated.to_unicode lg) (Depreciated.force_utf8 lg)
              (Depreciated.hide_utf8_warnings lg) (Depreciated.utf8_handling lg).
Proof.
  intros Hsame Hnext s span. subst span.
  rewrite legacy_next_by_reads, Hsame. fold s.
  rewrite next_by_reads in Hnext. fold s in Hnext.
  destruct (stream_read s 5) as [[first5|e] s1] eqn:H5; [|discriminate].
  destruct first5 as [|b r]; [discriminate|].
  destruct (length (b :: r) <? 5)%nat eqn:Hlen; [discriminate|].
  destruct (Py.int_of_bytes pep515 (b :: r)) as [L|e]; [|discriminate].
  destruct (stream_read s1 (L - 5)) as [[rest|e] s2] eqn:Hrest; [|discriminate].
  cbv zeta in Hnext. injection Hnext as _ <-.
  cbn [fst self with_stream byte_stream].
  apply Nat.ltb_ge in Hlen.
  pose proof (stream_read_inl _ _ H5) as (-> & Hfirst & Hle).
  specialize (Hle ltac:(lia)).
  assert (Hfive : length (b :: r) = 5) by (simpl in *; lia).
  pose proof (stream_read_inl _ _ Hrest) as (-> & Hsecond & _).
  rewrite remaining_advance in Hsecond.
  rewrite advance_advance. cbn [advance s_pos].
  replace (s_pos s + (length (b :: r) + length rest) - s_pos s)
    with (5 + length rest) by lia.
  rewrite <- firstn_then_firstn.
  rewrite Hfive in Hfirst, Hsecond. now rewrite <- Hfirst, <- Hsecond.
Qed.

End LegacyReader.

Lemma legacy_next_frames_like_next_witness :
  fst (Depreciated.next true keep_bytes (legacy_over (bytes_of "000")))
  = inr RecordLengthInvalid.
Proof.
  exact (proj2 (@legacy_next_frames_like_next true pyval accept_all keep_bytes
                  (legacy_over (bytes_of "000"))
                  (reader_over Py.strict (bytes_of "000")) eq_refl)
               RecordLengthInvalid eq_refl).
Defined.

Lemma legacy_next_passes_builder_outcome_through_witness :
  fst (Depreciated.next true refuse_bytes (legacy_over (bytes_of "00006A")))
  = inr (OtherError "RecordLeaderInvalid").
Proof.
  exact (@legacy_next_passes_builder_outcome_through true pyval accept_all
           refuse_bytes (legacy_over (bytes_of "00006A"))
           (reader_over Py.strict (bytes_of "00006A")) _ _ eq_refl eq_refl).
Defined.

(** ** The batch helper *)



Section BatchHelper.

Variable pep515 : bool.
Variable collections_Callable : bool.
Variable record : Type.
Variable Record_ : pyval -> bool -> Py.errors_mode -> record + exn.
Variable BufferedReader_ : marc_target -> stream + exn.
Variable U : Type.
Variable f : option record -> U -> (unit + exn) * U.

Local Abbreviation next := (MARCReader_next pep515 Record_).
Local Abbreviation run_map := (list_map pep515 Record_ f).
Local Abbreviation run :=
  (map_records pep515 collections_Callable Record_ BufferedReader_ f).





(** X17.  [map_records] works through its files strictly one after the
    other: handling [xs] followed by [ys] is handling [xs] and, if that
    returned, handling [ys] from the world and the state of [f] it left;
    once a file has failed the later files are not touched. *)
Theorem map_records_file_by_file xs : forall ys w u,
  map_records pep515 collections_Callable Record_ BufferedReader_ f (xs ++ ys) w u
  = match map_records pep515 collections_Callable Record_ BufferedReader_ f xs w u with
    | (Done, w', u') => map_records pep515 collections_Callable Record_ BufferedReader_ f ys w' u'
    | failed => failed
    end.
Proof.
  induction xs as [|x xs IH]; intros ys w u; [reflexivity|].
  cbn [app map_records].
  destruct (MARCReader_init collections_Callable BufferedReader_ x
                            (mkKwargs None None) w)
    as [[reader|e] w1]; [|reflexivity].
  destruct (list_map _ _ _ _ _ _) as [[[|e|] st'] u']; [apply IH | | ];
    reflexivity.
Qed.


End BatchHelper.



(** ** From a text-mode handle to records *)

Section ReopenedHandle.

Variable pep515 : bool.
Variable collections_Callable : bool.
Variable record : Type.
Variable Record_ : pyval -> bool -> Py.errors_mode -> record + exn.
Variable BufferedReader_ : marc_target -> stream + exn.

(** X19.  On an interpreter that has [collections.Callable], a reader
    built from a text-mode handle reads the file behind the handle's name
    from its first byte, in binary: the handle is closed, the name is
    opened, and when that file holds well-formed records a loop over the
    reader yields what the builder makes of each of them, in order, under
    the configured policy, and ends.  On an interpreter without
    [collections.Callable] the constructor raises [AttributeError] and
    the handle is neither closed nor reopened. *)
Theorem reopened_handle_yields_the_records_of_the_file h name rs kw w :
  t_name h = Some name ->
  fs w name = inl (concat rs) ->
  Forall well_formed rs ->
  let mode := configured_mode kw in
  let hide := configured_hide kw in
  let build r := Record_ (chunk_after_decode mode r) hide mode in
  (collections_Callable = true ->
   exists reader w',
     MARCReader_init collections_Callable BufferedReader_ (TextHandle h) kw w
     = (inl reader, w')
     /\ trace w' = trace w ++ [Closed (t_id h); Opened name (next_id w)]
     /\ fst (iterate pep515 Record_ (S (length rs)) (mkState reader (trace w')))
        = (map (fun r => returned (build r)) rs, Exhausted))
  /\ (collections_Callable = false ->
      MARCReader_init collections_Callable BufferedReader_ (TextHandle h) kw w
      = (inr AttributeError, w)).
Proof.
  intros Hname Hfile Hwf mode hide build. split; intros Hcc.
  - rewrite (@init_reopens collections_Callable BufferedReader_ (TextHandle h)
               kw w name (t_id h) (concat rs) Hcc eq_refl eq_refl
               ltac:(simpl; now rewrite Hname) eq_refl Hfile).
    eexists _, _. split; [reflexivity|]. split; [reflexivity|].
    rewrite iterate_on_records;
      [reflexivity | reflexivity | reflexivity | assumption].
  - exact (@init_without_Callable collections_Callable BufferedReader_
             (TextHandle h) kw w Hcc eq_refl).
Qed.

End ReopenedHandle.

Lemma reopened_handle_yields_the_records_of_the_file_witness :
  (exists reader w',
      MARCReader_init true no_wrapping text_file (mkKwargs None None)
                      sample_world
      = (inl reader, w')
      /\ trace w' = [Closed 3; Opened (Path "marc.dat") 4]
      /\ fst (iterate true accept_all 2 (mkState reader (trace w')))
         = ([Some (PyStr (map Py.code (bytes_of "00006A")))], Exhausted))
  /\ MARCReader_init false no_wrapping text_file (mkKwargs None None)
                     sample_world
     = (inr AttributeError, sample_world).
Proof.
  split.
  - exact (proj1 (@reopened_handle_yields_the_records_of_the_file
                    true true pyval accept_all no_wrapping
                    (mkText 3 (Some (Path "marc.dat")) true) (Path "marc.dat")
                    [bytes_of "00006A"] (mkKwargs None None) sample_world
                    eq_refl eq_refl ltac:(repeat constructor)) eq_refl).
  - exact (proj2 (@reopened_handle_yields_the_records_of_the_file
                    true false pyval accept_all no_wrapping
                    (mkText 3 (Some (Path "marc.dat")) true) (Path "marc.dat")
                    [bytes_of "00006A"] (mkKwargs None None) sample_world
                    eq_refl eq_refl ltac:(repeat constructor)) eq_refl).
Defined.

Lemma next_error_conditions_witness :
  fst (MARCReader_next true accept_all (reader_over Py.strict (bytes_of "0000")))
  = inr RecordLengthInvalid.
Proof.
  refine (proj2 (proj1 (proj2 (proj2
            (@next_error_conditions true pyval accept_all
               (reader_over Py.strict (bytes_of "0000"))))))
            (conj eq_refl _)).
  simpl. lia.
Defined.
